(** * Grid strategy: order ladder, local order book and order-update handler

    A shallow embedding of [pkg/strategy/grid/strategy.go].

    - Go [float64] is Rocq's primitive binary64 [float]; every [-=], [+=]
      and [<=] of the source is the IEEE 754 operation of [PrimFloat].
    - Go [int] is a 64-bit two's complement integer: a [Z] wrapped by
      [int_wrap] after each subtraction.
    - Go maps are stdpp [gmap]s.
    - The method receiver [s *Strategy] is mutable; the methods are state
      transformers over a [World] that holds the strategy, the order
      executor and the record of every batch handed to [SubmitOrders]. *)

From Stdlib Require Import ZArith QArith Floats.
From stdpp Require Import gmap strings list fin_maps.

Set Default Proof Using "Type".

(** ** Go integers *)

Definition int_min : Z := (- 2 ^ 63)%Z.
Definition int_max : Z := (2 ^ 63 - 1)%Z.

(** Two's complement wrap-around of a 64-bit [int]. *)
Definition int_wrap (z : Z) : Z := ((z + 2 ^ 63) `mod` 2 ^ 64 - 2 ^ 63)%Z.

Definition is_int (z : Z) : Prop := (int_min ≤ z ≤ int_max)%Z.

(** ** Exact value of a binary64 number *)

(** The rational a finite [float] stands for; [None] for NaN and the
    infinities. *)
Definition exact (x : float) : option Q :=
  match Prim2SF x with
  | S754_zero _ => Some 0%Q
  | S754_finite sign m e =>
      Some ((if sign then inject_Z (Z.neg m) else inject_Z (Z.pos m)) * Qpower 2 e)%Q
  | S754_infinity _ | S754_nan => None
  end.

(** [price] is exactly [edge − i·step] ([up] false: buys) or
    [edge + i·step] (sells), as rationals. *)
Definition on_grid (up : bool) (edge step : float) (i : nat) (price : float) : Prop :=
  match exact edge, exact step, exact price with
  | Some e, Some st, Some p =>
      (p == if up then e + inject_Z (Z.of_nat i) * st
            else e - inject_Z (Z.of_nat i) * st)%Q
  | _, _, _ => False
  end.

(** The operation that took [p] to [p'] by adding ([up]) or subtracting
    [step] was exact: no rounding, and every number finite. *)
Definition exact_step (up : bool) (step p p' : float) : Prop :=
  match exact p, exact step, exact p' with
  | Some q, Some st, Some q' => (q' == if up then q + st else q - st)%Q
  | _, _, _ => False
  end.

(** ** Package types *)

Module types.

Inductive SideType := SideTypeBuy | SideTypeSell.

Inductive OrderType := OrderTypeLimit | OrderTypeMarket.

(** Modelled from the spec: the order statuses of package [types], which is
    not among the sources ("Status is one of New, PartiallyFilled, Filled,
    Canceled, Rejected"). *)
Inductive OrderStatus :=
| OrderStatusNew
| OrderStatusPartiallyFilled
| OrderStatusFilled
| OrderStatusCanceled
| OrderStatusRejected.

Definition opposite (side : SideType) : SideType :=
  match side with
  | SideTypeBuy => SideTypeSell
  | SideTypeSell => SideTypeBuy
  end.

(** The two currencies of [types.Market] that the strategy reads. *)
Record Market := { BaseCurrency : string; QuoteCurrency : string }.

(** [types.SubmitOrder], with the fields the strategy fills in. *)
Record SubmitOrder := {
  Symbol : string;
  Side : SideType;
  Type_ : OrderType;
  Market_ : Market;
  Quantity : float;
  Price : float;
  TimeInForce : string
}.

(** Modelled from the spec: [types.Order] is not among the sources. An
    order has an exchange-assigned id, the attributes of the request
    (instrument, side, price, quantity) and a status. *)
Record Order := {
  Request : SubmitOrder;
  OrderID : N;
  Status : OrderStatus
}.

(** [types.Balance] is not among the sources; the strategy compares
    [Available] with the literal [0.0]. *)
Record Balance := { Currency : string; Available : float; Locked : float }.

(** Modelled from the spec: [types.LocalActiveOrderBook] is not among the
    sources. "Two disjoint mappings from order id to Order: one holding
    only Buy-side orders, one holding only Sell-side orders." *)
Record LocalActiveOrderBook := {
  Bids : gmap N Order;
  Asks : gmap N Order
}.

Definition NewLocalActiveOrderBook : LocalActiveOrderBook :=
  {| Bids := ∅; Asks := ∅ |}.

(** Modelled from the spec: one step of [Add], "idempotent upsert by id"
    into the mapping of the order's side. *)
Definition upsert (order : Order) (b : LocalActiveOrderBook) : LocalActiveOrderBook :=
  match Side (Request order) with
  | SideTypeBuy => {| Bids := <[OrderID order := order]> (Bids b); Asks := Asks b |}
  | SideTypeSell => {| Bids := Bids b; Asks := <[OrderID order := order]> (Asks b) |}
  end.

(** Modelled from the spec: [Add(orders...)] of the missing
    [LocalActiveOrderBook], the orders upserted from left to right. *)
Definition Add (orders : list Order) (b : LocalActiveOrderBook) : LocalActiveOrderBook :=
  foldl (λ acc order, upsert order acc) b orders.

(** Modelled from the spec: [Delete(order)] of the missing
    [LocalActiveOrderBook], "remove by id, no-op if absent". *)
Definition Delete (order : Order) (b : LocalActiveOrderBook) : LocalActiveOrderBook :=
  {| Bids := delete (OrderID order) (Bids b);
     Asks := delete (OrderID order) (Asks b) |}.

(** Modelled from the spec: [WriteOff(order)] of the missing
    [LocalActiveOrderBook], "remove by id ... distinguished from Delete
    only for observability, not behavior". *)
Definition WriteOff (order : Order) (b : LocalActiveOrderBook) : LocalActiveOrderBook :=
  Delete order b.

(** Modelled from the spec: [Len] of one side's mapping, "size of each
    mapping". *)
Definition Len (m : gmap N Order) : Z := Z.of_nat (size m).

Definition NumOfBids (b : LocalActiveOrderBook) : Z := Len (Bids b).
Definition NumOfAsks (b : LocalActiveOrderBook) : Z := Len (Asks b).

(** Modelled from the spec: [Orders()], the snapshot "for cancellation at
    shutdown": every order of the buy mapping, then every order of the
    sell mapping. *)
Definition Orders (b : LocalActiveOrderBook) : list Order :=
  (map_to_list (Bids b)).*2 ++ (map_to_list (Asks b)).*2.

(** An id is tracked when one of the two mappings holds it. *)
Definition tracked (id : N) (b : LocalActiveOrderBook) : Prop :=
  is_Some (Bids b !! id) ∨ is_Some (Asks b !! id).

Definition untracked (id : N) (b : LocalActiveOrderBook) : Prop :=
  Bids b !! id = None ∧ Asks b !! id = None.

(** Every entry is filed under its own id. *)
Definition keyed (b : LocalActiveOrderBook) : Prop :=
  (∀ id o, Bids b !! id = Some o → OrderID o = id)
  ∧ (∀ id o, Asks b !! id = Some o → OrderID o = id).

(** Filled, Canceled and Rejected are the terminal statuses. *)
Definition terminal (st : OrderStatus) : bool :=
  match st with
  | OrderStatusFilled | OrderStatusCanceled | OrderStatusRejected => true
  | OrderStatusNew | OrderStatusPartiallyFilled => false
  end.

End types.

(** ** Package indicator *)

Module indicator.

(** The two readings of [indicator.BOLL] the strategy takes,
    [LastDownBand()] and [LastUpBand()]; both are [float64]. *)
Record BOLL := { LastDownBand : float; LastUpBand : float }.

End indicator.

(** ** Package fixedpoint *)

Module fixedpoint.

(** [fixedpoint.Value] is not among the sources. The strategy only calls
    its [Float64()] method, so the type and the method are parameters. *)
Class Value (V : Type) := Float64 : V → float.

End fixedpoint.

(** ** Package bbgo *)

Module bbgo.

(** What [SubmitOrders] returns: the created orders and the error
    ([None] is Go's [nil]). *)
Definition Created : Type := list types.Order * option string.

(** The [bbgo.OrderExecutor] interface. A call may change the state of
    the executor (the exchange behind it). *)
Class OrderExecutor (E : Type) :=
  SubmitOrders : E → list types.SubmitOrder → E * Created.

Record Account := { Balances : gmap string types.Balance }.

Record ExchangeSession := { Account_ : Account }.

Record IntervalWindow := { Interval : string; Window : Z }.

(** [StandardIndicatorSet.GetBOLL]. *)
Definition StandardIndicatorSet : Type := IntervalWindow → indicator.BOLL.

End bbgo.

(** ** Package grid: the strategy *)

Module grid.
Import types indicator.

Record Strategy (V : Type) := {
  StandardIndicatorSet : bbgo.StandardIndicatorSet;
  Market : types.Market;
  Symbol : string;
  Interval : string;
  GridPips : V;
  GridNum : Z;
  BaseQuantity : float;
  activeOrders : LocalActiveOrderBook;
  boll : BOLL
}.

Arguments StandardIndicatorSet {V} _.
Arguments Market {V} _.
Arguments Symbol {V} _.
Arguments Interval {V} _.
Arguments GridPips {V} _.
Arguments GridNum {V} _.
Arguments BaseQuantity {V} _.
Arguments activeOrders {V} _.
Arguments boll {V} _.

(** One call of [SubmitOrders] as the strategy made it: the batch and
    what came back. *)
Definition Submission : Type := list SubmitOrder * bbgo.Created.

(** The state the methods run in. [submitted] records the calls of
    [SubmitOrders], oldest first. *)
Record World (V E : Type) := {
  strategy : Strategy V;
  orderExecutor : E;
  submitted : list Submission
}.

Arguments strategy {V E} _.
Arguments orderExecutor {V E} _.
Arguments submitted {V E} _.

Section Methods.
Context {V : Type} `{!fixedpoint.Value V}.
Context {E : Type} `{!bbgo.OrderExecutor E}.

(** [s.GridNum = n] *)
Definition set_GridNum (n : Z) (s : Strategy V) : Strategy V :=
  {| StandardIndicatorSet := StandardIndicatorSet s; Market := Market s;
     Symbol := Symbol s; Interval := Interval s; GridPips := GridPips s;
     GridNum := n; BaseQuantity := BaseQuantity s;
     activeOrders := activeOrders s; boll := boll s |}.

(** [s.boll = b] *)
Definition set_boll (b : BOLL) (s : Strategy V) : Strategy V :=
  {| StandardIndicatorSet := StandardIndicatorSet s; Market := Market s;
     Symbol := Symbol s; Interval := Interval s; GridPips := GridPips s;
     GridNum := GridNum s; BaseQuantity := BaseQuantity s;
     activeOrders := activeOrders s; boll := b |}.

(** [s.activeOrders] replaced (or mutated in place) to [b]. *)
Definition set_activeOrders (b : LocalActiveOrderBook) (s : Strategy V) : Strategy V :=
  {| StandardIndicatorSet := StandardIndicatorSet s; Market := Market s;
     Symbol := Symbol s; Interval := Interval s; GridPips := GridPips s;
     GridNum := GridNum s; BaseQuantity := BaseQuantity s;
     activeOrders := b; boll := boll s |}.

(** [orderExecutor.SubmitOrders(ctx, submitOrders...)], recorded. *)
Definition submit (submitOrders : list SubmitOrder) (w : World V E)
  : World V E * bbgo.Created :=
  let '(oe, r) := bbgo.SubmitOrders (orderExecutor w) submitOrders in
  ({| strategy := strategy w; orderExecutor := oe;
      submitted := submitted w ++ [(submitOrders, r)] |}, r).

(** [s.activeOrders.Add(orders...)] *)
Definition addOrders (orders : list Order) (w : World V E) : World V E :=
  {| strategy := set_activeOrders (Add orders (activeOrders (strategy w))) (strategy w);
     orderExecutor := orderExecutor w;
     submitted := submitted w |}.

(** The loop of [updateBidOrders]: [numOrders] rounds, each appending
    one buy order at [startPrice] and then lowering [startPrice] by
    [s.GridPips.Float64()]. *)
Fixpoint bidOrders (s : Strategy V) (numOrders : nat) (startPrice : float)
  : list SubmitOrder :=
  match numOrders with
  | O => []
  | S n =>
      {| types.Symbol := Symbol s;
         Side := SideTypeBuy;
         Type_ := OrderTypeLimit;
         Market_ := Market s;
         Quantity := BaseQuantity s;
         Price := startPrice;
         TimeInForce := "GTC" |}
      :: bidOrders s n (startPrice - fixedpoint.Float64 (GridPips s))%float
  end.

(** The loop of [updateAskOrders]: the same with sell orders and
    [startPrice] raised. *)
Fixpoint askOrders (s : Strategy V) (numOrders : nat) (startPrice : float)
  : list SubmitOrder :=
  match numOrders with
  | O => []
  | S n =>
      {| types.Symbol := Symbol s;
         Side := SideTypeSell;
         Type_ := OrderTypeLimit;
         Market_ := Market s;
         Quantity := BaseQuantity s;
         Price := startPrice;
         TimeInForce := "GTC" |}
      :: askOrders s n (startPrice + fixedpoint.Float64 (GridPips s))%float
  end.

Definition updateBidOrders (session : bbgo.ExchangeSession) (w : World V E)
  : World V E :=
  let s := strategy w in
  let quoteCurrency := QuoteCurrency (Market s) in
  let balances := bbgo.Balances (bbgo.Account_ session) in
  match balances !! quoteCurrency with
  | None => w
  | Some balance =>
      if (Available balance <=? 0)%float then w else
      let numOrders := int_wrap (GridNum s - NumOfBids (activeOrders s)) in
      if (numOrders <=? 0)%Z then w else
      let downBand := LastDownBand (boll s) in
      if (downBand <=? 0)%float then w else
      let submitOrders := bidOrders s (Z.to_nat numOrders) downBand in
      let '(w', (orders, err)) := submit submitOrders w in
      match err with
      | Some _ => w'
      | None => addOrders orders w'
      end
  end.

Definition updateAskOrders (session : bbgo.ExchangeSession) (w : World V E)
  : World V E :=
  let s := strategy w in
  let baseCurrency := BaseCurrency (Market s) in
  let balances := bbgo.Balances (bbgo.Account_ session) in
  match balances !! baseCurrency with
  | None => w
  | Some balance =>
      if (Available balance <=? 0)%float then w else
      let numOrders := int_wrap (GridNum s - NumOfAsks (activeOrders s)) in
      if (numOrders <=? 0)%Z then w else
      let upBand := LastUpBand (boll s) in
      if (upBand <=? 0)%float then w else
      let submitOrders := askOrders s (Z.to_nat numOrders) upBand in
      let '(w', (orders, err)) := submit submitOrders w in
      match err with
      | Some _ => w'
      | None => addOrders orders w'
      end
  end.

Definition updateOrders (session : bbgo.ExchangeSession) (w : World V E)
  : World V E :=
  let w1 :=
    if (Len (Bids (activeOrders (strategy w))) <? GridNum (strategy w))%Z
    then updateBidOrders session w else w in
  if (Len (Asks (activeOrders (strategy w1))) <? GridNum (strategy w1))%Z
  then updateAskOrders session w1 else w1.

(** The callback [Run] passes to [session.Stream.OnOrderUpdate]. *)
Definition onOrderUpdate (order : Order) (s : Strategy V) : Strategy V :=
  if negb (String.eqb (types.Symbol (Request order)) (Symbol s)) then s else
  match Status order with
  | OrderStatusFilled =>
      set_activeOrders (WriteOff order (activeOrders s)) s
  | OrderStatusCanceled | OrderStatusRejected =>
      set_activeOrders (Delete order (activeOrders s)) s
  | _ =>
      set_activeOrders (Add [order] (activeOrders s)) s
  end.

(** The callback run on a sequence of notifications, first to last. *)
Definition reconcile (orders : list Order) (s : Strategy V) : Strategy V :=
  foldl (λ acc order, onOrderUpdate order acc) s orders.

(** What [Run] does to the strategy before it registers the callback
    and starts the loop. *)
Definition RunSetup (s : Strategy V) : Strategy V :=
  let s1 := if (GridNum s =? 0)%Z then set_GridNum 2 s else s in
  let s2 :=
    set_boll (StandardIndicatorSet s1
                {| bbgo.Interval := Interval s1; bbgo.Window := 21 |}) s1 in
  set_activeOrders NewLocalActiveOrderBook s2.

(** [Run] up to the first [updateOrders] of its goroutine, which is
    made before the first tick. *)
Definition Run (orderExecutor : E) (session : bbgo.ExchangeSession)
    (s : Strategy V) : World V E :=
  updateOrders session
    {| strategy := RunSetup s; orderExecutor := orderExecutor; submitted := [] |}.

(** *** The two sides seen uniformly

    [updateBidOrders] and [updateAskOrders] differ in the currency,
    the mapping counted, the band read and the direction of the step.
    The definitions below name these per side. *)

Definition updateSide (side : SideType)
  : bbgo.ExchangeSession → World V E → World V E :=
  match side with
  | SideTypeBuy => updateBidOrders
  | SideTypeSell => updateAskOrders
  end.

Definition currencyOf (side : SideType) (s : Strategy V) : string :=
  match side with
  | SideTypeBuy => QuoteCurrency (Market s)
  | SideTypeSell => BaseCurrency (Market s)
  end.

Definition mappingOf (side : SideType) (b : LocalActiveOrderBook) : gmap N Order :=
  match side with
  | SideTypeBuy => Bids b
  | SideTypeSell => Asks b
  end.

Definition bandEdge (side : SideType) (b : BOLL) : float :=
  match side with
  | SideTypeBuy => LastDownBand b
  | SideTypeSell => LastUpBand b
  end.

(** One step away from the band: [startPrice -= s.GridPips.Float64()]
    for buys, [+=] for sells. *)
Definition away (side : SideType) (s : Strategy V) (price : float) : float :=
  match side with
  | SideTypeBuy => (price - fixedpoint.Float64 (GridPips s))%float
  | SideTypeSell => (price + fixedpoint.Float64 (GridPips s))%float
  end.

(** The order either loop appends at [price]. *)
Definition rung (side : SideType) (s : Strategy V) (price : float) : SubmitOrder :=
  {| types.Symbol := Symbol s;
     Side := side;
     Type_ := OrderTypeLimit;
     Market_ := Market s;
     Quantity := BaseQuantity s;
     Price := price;
     TimeInForce := "GTC" |}.

Definition ladder (side : SideType) : Strategy V → nat → float → list SubmitOrder :=
  match side with
  | SideTypeBuy => bidOrders
  | SideTypeSell => askOrders
  end.

(** [N − currentCount] of a side, before any wrap-around. *)
Definition deficit (side : SideType) (s : Strategy V) : Z :=
  (GridNum s - Len (mappingOf side (activeOrders s)))%Z.

(** One side of [updateOrders]: the length test and the call. *)
Definition replenish (side : SideType) (session : bbgo.ExchangeSession)
    (w : World V E) : World V E :=
  if (Len (mappingOf side (activeOrders (strategy w))) <? GridNum (strategy w))%Z
  then updateSide side session w else w.

(** The balance of the side's currency is absent or not positive, or
    the side's band is not positive. *)
Definition unavailable (side : SideType) (session : bbgo.ExchangeSession)
    (s : Strategy V) : Prop :=
  match bbgo.Balances (bbgo.Account_ session) !! currencyOf side s with
  | None => True
  | Some balance => (Available balance <=? 0)%float = true
  end
  ∨ (bandEdge side (boll s) <=? 0)%float = true.

(** A submission succeeded: no error, one order per request and on the
    request's side, under ids that are pairwise distinct and new to
    the book [b]. *)
Definition acknowledged (b : LocalActiveOrderBook) (call : Submission) : Prop :=
  let '(batch, (orders, err)) := call in
  err = None
  ∧ Forall2 (λ r o, Side (Request o) = Side r) batch orders
  ∧ NoDup (OrderID <$> orders)
  ∧ Forall (λ o, untracked (OrderID o) b) orders.

(** *** The loop of [Run] and the callback, side by side

    After [Run] has returned, the strategy is driven by the ticker of the
    loop goroutine and by the order updates of the stream. A tick comes
    with what the session's account and the indicator hold at that moment;
    each tick is taken as a whole. *)

Inductive Event :=
| Tick (session : bbgo.ExchangeSession) (band : BOLL)
| OrderUpdate (order : Order).

Definition step (ev : Event) (w : World V E) : World V E :=
  match ev with
  | Tick session band =>
      updateOrders session
        {| strategy := set_boll band (strategy w);
           orderExecutor := orderExecutor w;
           submitted := submitted w |}
  | OrderUpdate order =>
      {| strategy := onOrderUpdate order (strategy w);
         orderExecutor := orderExecutor w;
         submitted := submitted w |}
  end.

Definition run (events : list Event) (w : World V E) : World V E :=
  foldl (λ acc ev, step ev acc) w events.

(** The event does not bring order [id] back by a notification: it is a
    tick, or an update for another id, for another instrument than
    [symbol], or with a terminal status. *)
Definition keeps_out (id : N) (symbol : string) (ev : Event) : Prop :=
  match ev with
  | Tick _ _ => True
  | OrderUpdate o =>
      OrderID o = id → types.Symbol (Request o) = symbol →
      terminal (Status o) = true
  end.

(** The calls of [SubmitOrders] made on the way from [before] to
    [after]. *)
Definition submittedSince (before after : World V E) : list Submission :=
  drop (length (submitted before)) (submitted after).

(** [true] for the side whose prices go up from the band. *)
Definition upwards (side : SideType) : bool :=
  match side with
  | SideTypeBuy => false
  | SideTypeSell => true
  end.

(** What the configuration file and the injection set, and [Run]'s
    default: every field but the book and the indicator. *)
Definition settings (s : Strategy V) :=
  (StandardIndicatorSet s, Market s, Symbol s, Interval s, GridPips s,
   GridNum s, BaseQuantity s).

(** The call submits the ladder of the side's deficit, which is at least
    one order and at most [GridNum]. *)
Definition planned (side : SideType) (s : Strategy V) (call : Submission) : Prop :=
  (1 ≤ deficit side s ≤ GridNum s)%Z
  ∧ call.1 = ladder side s (Z.to_nat (deficit side s)) (bandEdge side (boll s)).

(** The orders that came back from the calls that returned no error. *)
Definition accepted (calls : list Submission) : list Order :=
  flat_map (λ call : Submission,
              match call.2.2 with
              | None => call.2.1
              | Some _ => []
              end) calls.

End Methods.

End grid.

(** ** Package maxapi: the order endpoint

    A shallow embedding of [exchange/max/maxapi/order.go]. The REST client
    ([RestClient], its requests and responses) and the JSON decoder are not
    among the sources: they are the parameters of [RestClient] below. *)

Module maxapi.

(** A Go [error], by its message; [None] of [option error] is [nil]. *)
Definition error : Type := string.

(** [errors.Wrapf(err, format, args...)]: the formatted message, a colon
    and the message of the cause. *)
Definition Wrapf (err : error) (message : string) : error :=
  message +:+ ": " +:+ err.

(** The constants of [OrderStateToQuery]: [iota] counts from 0. *)
Definition All : Z := 0.
Definition Active : Z := 1.
Definition Closed : Z := 2.

Definition OrderTypeMarket : string := "market".
Definition OrderTypeLimit : string := "limit".

(** [time.Time], as an instant; 0 is the zero value. *)
Definition Time : Type := Z.

Record Order := {
  ID : N;
  Side : string;
  OrderType : string;
  Price : string;
  AveragePrice : string;
  State : string;
  Market : string;
  Volume : string;
  RemainingVolume : string;
  ExecutedVolume : string;
  TradesCount : Z;
  GroupID : Z;
  ClientOID : string;
  CreatedAt : Time;
  CreatedAtMs : Z;
  InsertedAt : Time
}.

(** [Order{}], every field at its zero value. *)
Definition zeroOrder : Order :=
  {| ID := 0; Side := ""; OrderType := ""; Price := ""; AveragePrice := "";
     State := ""; Market := ""; Volume := ""; RemainingVolume := "";
     ExecutedVolume := ""; TradesCount := 0; GroupID := 0; ClientOID := "";
     CreatedAt := 0%Z; CreatedAtMs := 0; InsertedAt := 0%Z |}.

(** The values the file stores under [interface{}] in a payload. *)
Inductive Value :=
| VString (s : string)
| VInt (z : Z)
| VUint64 (n : N)
| VStrings (l : list string)
| VOrders (l : list Order).

(** [map[string]interface{}] *)
Abbreviation Payload := (gmap string Value).

(** What a method asked of the client, in order: a request built with
    [newAuthenticatedRequest], a request sent with [sendRequest], or a
    request built and sent in one with [sendAuthenticatedRequest]. *)
Inductive Call (Req : Type) :=
| Built (method path : string) (payload : Payload)
| Sent (req : Req)
| SentAuthenticated (method path : string) (payload : Payload).

Arguments Built {Req} _ _ _.
Arguments Sent {Req} _.
Arguments SentAuthenticated {Req} _ _ _.

(** The methods of [RestClient] and of its responses that the file calls.
    A call may change the state of the client. [DecodeJSON] into a fresh
    [[]Order] or [Order] gives what it left in the target and its error. *)
Class RestClient (C Req Resp : Type) := {
  newAuthenticatedRequest : C → string → string → Payload → C * (Req + error);
  sendRequest : C → Req → C * (Resp + error);
  sendAuthenticatedRequest : C → string → string → Payload → C * (Resp + error);
  DecodeJSON_orders : Resp → list Order * option error;
  DecodeJSON_order : Resp → Order * option error
}.

(** [strconv.FormatFloat(v, 'f', -1, 64)] *)
Class FloatFormat := FormatFloat : float → string.

(** [OrderService], with the record of the calls its methods made of the
    client, oldest first. *)
Record OrderService (C Req : Type) := {
  client : C;
  calls : list (Call Req)
}.

Arguments client {C Req} _.
Arguments calls {C Req} _.

(** A function that returns, or panics. *)
Inductive Outcome (A : Type) :=
| Returns (a : A)
| Panics (message : string).

Arguments Returns {A} _.
Arguments Panics {A} _.

Section Methods.
Context {C Req Resp : Type} `{!RestClient C Req Resp} `{!FloatFormat}.

(** [s.client.newAuthenticatedRequest(method, path, payload)], recorded. *)
Definition build (s : OrderService C Req) (method path : string) (payload : Payload)
  : OrderService C Req * (Req + error) :=
  let '(c, r) := newAuthenticatedRequest (client s) method path payload in
  ({| client := c; calls := calls s ++ [Built method path payload] |}, r).

(** [s.client.sendRequest(req)], recorded. *)
Definition send (s : OrderService C Req) (req : Req)
  : OrderService C Req * (Resp + error) :=
  let '(c, r) := sendRequest (client s) req in
  ({| client := c; calls := calls s ++ [Sent req] |}, r).

(** [s.client.sendAuthenticatedRequest(method, path, payload)], recorded. *)
Definition buildAndSend (s : OrderService C Req) (method path : string)
    (payload : Payload) : OrderService C Req * (Resp + error) :=
  let '(c, r) := sendAuthenticatedRequest (client s) method path payload in
  ({| client := c; calls := calls s ++ [SentAuthenticated method path payload] |}, r).

Definition OrderService_All (s : OrderService C Req) (market : string)
    (limit page : Z) (state : Z)
  : OrderService C Req * (list Order * option error) :=
  let states :=
    if (state =? All)%Z then ["done"; "cancel"; "wait"; "convert"]
    else if (state =? Active)%Z then ["wait"; "convert"]
    else if (state =? Closed)%Z then ["done"; "cancel"]
    else ["wait"; "convert"] in
  let payload : Payload :=
    <["market" := VString market]>
      (<["limit" := VInt limit]>
         (<["page" := VInt page]>
            (<["state" := VStrings states]>
               (<["order_by" := VString "desc"]> ∅)))) in
  let '(s1, r) := build s "GET" "v2/orders" payload in
  match r with
  | inr err => (s1, ([], Some err))
  | inl req =>
      let '(s2, r2) := send s1 req in
      match r2 with
      | inr err => (s2, ([], Some err))
      | inl response =>
          let '(orders, err) := DecodeJSON_orders response in
          match err with
          | Some err => (s2, ([], Some err))
          | None => (s2, (orders, None))
          end
      end
  end.

Definition OrderService_CancelAll (s : OrderService C Req) (side market : string)
  : OrderService C Req * option error :=
  let payload : Payload := ∅ in
  let payload :=
    if (String.eqb side "buy" || String.eqb side "sell")%bool
    then <["side" := VString side]> payload else payload in
  let payload :=
    if negb (String.eqb market "all")
    then <["market" := VString market]> payload else payload in
  let '(s1, r) := build s "POST" "v2/orders/clear" payload in
  match r with
  | inr err => (s1, Some err)
  | inl req =>
      let '(s2, r2) := send s1 req in
      match r2 with
      | inr err => (s2, Some err)
      | inl _ => (s2, None)
      end
  end.

(** [Create]. [options] is the caller's map ([None] is a nil map): the
    five assignments write into it, so the map as [Create] leaves it is
    part of the result. An assignment to an entry of a nil map panics. *)
Definition OrderService_Create (s : OrderService C Req) (market side : string)
    (volume price : float) (orderType : string) (options : option Payload)
  : Outcome (OrderService C Req * Payload * (option Order * option error)) :=
  match options with
  | None => Panics "assignment to entry in nil map"
  | Some options =>
      let options := <["market" := VString market]> options in
      let options := <["volume" := VString (FormatFloat volume)]> options in
      let options := <["price" := VString (FormatFloat price)]> options in
      let options := <["side" := VString side]> options in
      let options := <["ord_type" := VString orderType]> options in
      let '(s1, r) := buildAndSend s "POST" "v2/orders" options in
      match r with
      | inr err => Returns (s1, options, (None, Some err))
      | inl response =>
          let '(order, err) := DecodeJSON_order response in
          match err with
          | Some err => Returns (s1, options, (None, Some err))
          | None => Returns (s1, options, (Some order, None))
          end
      end
  end.

Definition OrderService_Cancel (s : OrderService C Req) (orderID : N)
  : OrderService C Req * option error :=
  let payload : Payload := <["id" := VUint64 orderID]> ∅ in
  let '(s1, r) := build s "POST" "v2/order/delete" payload in
  match r with
  | inr err => (s1, Some err)
  | inl req =>
      let '(s2, r2) := send s1 req in
      match r2 with
      | inr err => (s2, Some err)
      | inl _ => (s2, None)
      end
  end.

Definition OrderService_Get (s : OrderService C Req) (orderID : N)
  : OrderService C Req * (option Order * option error) :=
  let payload : Payload := <["id" := VUint64 orderID]> ∅ in
  let '(s1, r) := build s "GET" "v2/order" payload in
  match r with
  | inr err => (s1, (Some zeroOrder, Some err))
  | inl req =>
      let '(s2, r2) := send s1 req in
      match r2 with
      | inr err => (s2, (None, Some err))
      | inl response =>
          let '(order, err) := DecodeJSON_order response in
          match err with
          | Some err => (s2, (None, Some err))
          | None => (s2, (Some order, None))
          end
      end
  end.

Definition OrderService_CreateMulti (s : OrderService C Req) (market : string)
    (orders : list Order)
  : OrderService C Req * (list Order * option error) :=
  let returnOrders : list Order := [] in
  let payload : Payload :=
    <["market" := VString market]> (<["orders" := VOrders orders]> ∅) in
  let '(s1, r) := build s "POST" "v2/orders/multi/onebyone" payload in
  match r with
  | inr err =>
      (s1, (returnOrders,
            Some (Wrapf err ("failed to create " +:+ market +:+ " orders"))))
  | inl req =>
      let '(s2, r2) := send s1 req in
      match r2 with
      | inr err => (s2, (returnOrders, Some err))
      | inl response =>
          let '(returnOrders, errJson) := DecodeJSON_orders response in
          match errJson with
          | Some errJson => (s2, (returnOrders, Some errJson))
          | None => (s2, (returnOrders, None))
          end
      end
  end.

(** The first call of the client that a method made, between the service
    as it was and as the method left it. *)
Definition firstCall (before after : OrderService C Req) : option (Call Req) :=
  calls after !! length (calls before).

(** The method built one request and, if that succeeded, sent that
    request and nothing else. *)
Definition roundTrip (before after : OrderService C Req) : Prop :=
  ∃ method path payload,
    match (newAuthenticatedRequest (client before) method path payload).2 with
    | inr _ => calls after = calls before ++ [Built method path payload]
    | inl req => calls after = calls before ++ [Built method path payload; Sent req]
    end.

End Methods.

End maxapi.

(** ** Concrete instances, for the examples *)

Module sample.
Import types indicator grid.

(** A fixed-point number with eight decimals: the integer [v] stands for
    [v / 10^8], and [Float64] is that quotient in binary64. *)
Record Fixed8 := { units : Z }.

#[global] Instance Fixed8_Value : fixedpoint.Value Fixed8 :=
  λ v, (PrimFloat.of_uint63 (Uint63.of_Z (units v)) / 100000000)%float.

(** An executor that accepts every batch: each request comes back as a
    New order under the next free id. *)
Record Paper := { next_id : N }.

Fixpoint accept (id : N) (batch : list SubmitOrder) : list Order :=
  match batch with
  | [] => []
  | r :: rest =>
      {| Request := r; OrderID := id; Status := OrderStatusNew |}
      :: accept (N.succ id) rest
  end.

#[global] Instance Paper_Executor : bbgo.OrderExecutor Paper :=
  λ p batch,
    ({| next_id := next_id p + N.of_nat (length batch) |},
     (accept (next_id p) batch, None)).

(** An executor whose every call fails, although it reports orders. *)
Inductive Down := down.

#[global] Instance Down_Executor : bbgo.OrderExecutor Down :=
  λ d batch, (d, (accept 1 batch, Some "exchange unavailable")).

Definition market : types.Market := {| BaseCurrency := "BTC"; QuoteCurrency := "USDT" |}.

Definition bands (lo up : float) : BOLL := {| LastDownBand := lo; LastUpBand := up |}.

(** A strategy on BTCUSDT with an empty book. *)
Definition config (pips : Z) (num : Z) (band : BOLL) : Strategy Fixed8 :=
  {| StandardIndicatorSet := λ _, band;
     Market := market;
     Symbol := "BTCUSDT";
     Interval := "1m";
     GridPips := {| units := pips |};
     GridNum := num;
     BaseQuantity := 0.5;
     activeOrders := NewLocalActiveOrderBook;
     boll := band |}.

Definition balance (currency : string) (available : float) : Balance :=
  {| Currency := currency; Available := available; Locked := 0 |}.

(** A session whose account holds the two given available balances. *)
Definition funded (base quote : float) : bbgo.ExchangeSession :=
  {| bbgo.Account_ :=
       {| bbgo.Balances :=
            <["BTC" := balance "BTC" base]>
              (<["USDT" := balance "USDT" quote]> ∅) |} |}.

Definition start {E : Type} (e : E) (s : Strategy Fixed8) : World Fixed8 E :=
  {| strategy := s; orderExecutor := e; submitted := [] |}.

Definition request (side : SideType) (price : float) : SubmitOrder :=
  {| types.Symbol := "BTCUSDT"; Side := side; Type_ := OrderTypeLimit;
     Market_ := market; Quantity := 0.5; Price := price; TimeInForce := "GTC" |}.

Definition notice (id : N) (symbol : string) (side : SideType) (st : OrderStatus)
  : Order :=
  {| Request := {| types.Symbol := symbol; Side := side; Type_ := OrderTypeLimit;
                   Market_ := market; Quantity := 0.5; Price := 100;
                   TimeInForce := "GTC" |};
     OrderID := id; Status := st |}.

End sample.

(** ** A scripted REST client, for the examples *)

Module scripted.

(** The client answers as the script says: whether building and sending
    fail, and what decoding the response gives. *)
Record Script := {
  build_error : option maxapi.error;
  send_error : option maxapi.error;
  orders_reply : list maxapi.Order * option maxapi.error;
  order_reply : maxapi.Order * option maxapi.error
}.

Record Request := {
  method : string;
  path : string;
  payload : maxapi.Payload
}.

#[global] Instance Script_RestClient : maxapi.RestClient Script Request Script := {|
  maxapi.newAuthenticatedRequest c m p pl :=
    (c, match build_error c with
        | Some e => inr e
        | None => inl {| method := m; path := p; payload := pl |}
        end);
  maxapi.sendRequest c r :=
    (c, match send_error c with Some e => inr e | None => inl c end);
  maxapi.sendAuthenticatedRequest c m p pl :=
    (c, match build_error c, send_error c with
        | Some e, _ => inr e
        | None, Some e => inr e
        | None, None => inl c
        end);
  maxapi.DecodeJSON_orders response := orders_reply response;
  maxapi.DecodeJSON_order response := order_reply response
|}.

Definition order (id : N) (state : string) : maxapi.Order :=
  {| maxapi.ID := id; maxapi.Side := "buy"; maxapi.OrderType := "limit";
     maxapi.Price := "100"; maxapi.AveragePrice := "0"; maxapi.State := state;
     maxapi.Market := "btctwd"; maxapi.Volume := "0.5";
     maxapi.RemainingVolume := "0.5"; maxapi.ExecutedVolume := "0";
     maxapi.TradesCount := 0; maxapi.GroupID := 0; maxapi.ClientOID := "";
     maxapi.CreatedAt := 0%Z; maxapi.CreatedAtMs := 0; maxapi.InsertedAt := 0%Z |}.

(** Every step succeeds; two orders are decoded. *)
Definition healthy : Script :=
  {| build_error := None; send_error := None;
     orders_reply := ([order 1 "wait"; order 2 "wait"], None);
     order_reply := (order 1 "wait", None) |}.

(** The response is received, but its JSON breaks off after one order. *)
Definition truncated : Script :=
  {| build_error := None; send_error := None;
     orders_reply := ([order 1 "wait"], Some "unexpected end of JSON input");
     order_reply := (order 1 "", Some "unexpected end of JSON input") |}.

(** The request cannot be built. *)
Definition unsigned : Script :=
  {| build_error := Some "missing api key"; send_error := None;
     orders_reply := ([], None);
     order_reply := (maxapi.zeroOrder, None) |}.

Definition service (c : Script) : maxapi.OrderService Script Request :=
  {| maxapi.client := c; maxapi.calls := [] |}.

End scripted.

(** * Properties *)

Import types indicator grid.

Lemma int_wrap_id (z : Z) : is_int z → int_wrap z = z.
Proof.
  unfold is_int, int_min, int_max, int_wrap. intros Hz.
  rewrite Z.mod_small; lia.
Qed.

Lemma Len_nonneg (m : gmap N Order) : (0 ≤ Len m)%Z.
Proof. unfold Len. lia. Qed.

Section Ladder.
Context {V : Type} `{!fixedpoint.Value V}.
Implicit Types (s : Strategy V) (side : SideType).

Lemma ladder_unfold side s n p :
  ladder side s (S n) p = rung side s p :: ladder side s n (away side s p).
Proof. by destruct side. Qed.

Lemma length_ladder side s n p : length (ladder side s n p) = n.
Proof.
  revert p. induction n as [|n IH]; intros p; [by destruct side|].
  rewrite ladder_unfold. simpl. by rewrite IH.
Qed.

(** Rung [i] is priced at the start price moved away [i] times. *)
Lemma ladder_lookup side s n p i :
  (i < n)%nat →
  ladder side s n p !! i = Some (rung side s (Nat.iter i (away side s) p)).
Proof.
  revert p i. induction n as [|n IH]; intros p i Hi; [lia|].
  rewrite ladder_unfold. destruct i as [|i]; [done|].
  simpl lookup. rewrite IH by lia. by rewrite Nat.iter_succ_r.
Qed.

Lemma ladder_sides side s n p :
  Forall (λ r, Side r = side) (ladder side s n p).
Proof.
  revert p. induction n as [|n IH]; intros p; [destruct side; constructor|].
  rewrite ladder_unfold. constructor; [done|apply IH].
Qed.

Lemma set_activeOrders_id s : set_activeOrders (activeOrders s) s = s.
Proof. by destruct s. Qed.

End Ladder.

Section Replenishment.
Context {V : Type} `{!fixedpoint.Value V}.
Context {E : Type} `{!bbgo.OrderExecutor E}.
Implicit Types (s : Strategy V) (side : SideType) (w : World V E).

(** What one side's update does, by cases: it returns at one of the three
    guards and leaves the world as it was, or it submits the ladder of
    the wrapped deficit and adds the returned orders unless the call
    failed. *)
Lemma updateSide_cases side session w :
  let s := strategy w in
  let n := int_wrap (deficit side s) in
  let batch := ladder side s (Z.to_nat n) (bandEdge side (boll s)) in
  (updateSide side session w = w ∧ (unavailable side session s ∨ (n ≤ 0)%Z))
  ∨ (¬ unavailable side session s ∧ (0 < n)%Z ∧
     ∃ oe orders err,
       bbgo.SubmitOrders (orderExecutor w) batch = (oe, (orders, err)) ∧
       updateSide side session w =
         {| strategy :=
              match err with
              | Some _ => s
              | None => set_activeOrders (Add orders (activeOrders s)) s
              end;
            orderExecutor := oe;
            submitted := submitted w ++ [(batch, (orders, err))] |}).
Proof.
  intros s n batch. subst s n batch.
  destruct side; unfold updateSide, updateBidOrders, updateAskOrders,
    unavailable, deficit, NumOfBids, NumOfAsks, submit, addOrders;
    simpl currencyOf; simpl mappingOf; simpl bandEdge; simpl ladder.
  all: destruct (bbgo.Balances (bbgo.Account_ session) !! _) as [balance|] eqn:Hb;
    [|left; split; [done|by left; left]].
  all: destruct (Available balance <=? 0)%float eqn:Ha;
    [left; split; [done|by left; left]|].
  all: match goal with |- context [(int_wrap ?d <=? 0)%Z] =>
         destruct (Z.leb_spec (int_wrap d) 0) as [Hn|Hn] end;
    [left; split; [done|by right]|].
  all: match goal with |- context [(?b <=? 0)%float] =>
         destruct (b <=? 0)%float eqn:Hband end;
    [left; split; [done|by left; right]|].
  all: right; split; [intros [?|?]; congruence|]; split; [done|].
  all: match goal with |- context [bbgo.SubmitOrders ?e ?b] =>
         destruct (bbgo.SubmitOrders e b) as [oe [orders err]] eqn:Hs end.
  all: exists oe, orders, err; split; [done|]; by destruct err.
Qed.

(** A side whose guards do not pass is skipped. *)
Lemma updateSide_skip side session w :
  unavailable side session (strategy w) ∨ (int_wrap (deficit side (strategy w)) ≤ 0)%Z →
  updateSide side session w = w.
Proof.
  intros Hskip.
  destruct (updateSide_cases side session w) as [[Heq _]|(Hav & Hn & _)]; [done|].
  destruct Hskip; [done|lia].
Qed.

End Replenishment.

(** ** The ladder a side submits *)



(** ** Rung prices are binary64 numbers *)

(** C4 does not hold as stated. With band 100 and step 0.1 (ten million
    units of [Fixed8]), rung 1 of the buy ladder is not 100 − 1·step,
    whichever way the step is read: as the binary64 number [Float64]
    returns or as the decimal 1/10. And rung 2 is not the binary64 number
    100 − 2·step either: the rounding of rung 1 is carried into it. *)
Lemma rung_price_off_grid :
  let s := sample.config 10000000 3 (sample.bands 100 110) in
  ∃ r1 r2,
    bidOrders s 3 100 !! 1%nat = Some r1
    ∧ bidOrders s 3 100 !! 2%nat = Some r2
    ∧ ¬ on_grid false 100 (fixedpoint.Float64 (GridPips s)) 1 (Price r1)
    ∧ (∀ p, exact (Price r1) = Some p → ¬ (p == 100 - (1 # 10))%Q)
    ∧ Price r2 ≠ (100 - 2 * fixedpoint.Float64 (GridPips s))%float.
Proof.
  eexists _, _.
  split; [vm_compute; reflexivity|].
  split; [vm_compute; reflexivity|].
  split; [vm_compute; intros Heq; discriminate Heq|].
  split.
  { intros p Hp. vm_compute in Hp. injection Hp as <-.
    vm_compute. intros Heq. discriminate Heq. }
  intros Heq.
  apply (f_equal (λ x, PrimFloat.eqb x
            (100 - 2 * fixedpoint.Float64 {| sample.units := 10000000 |})%float)) in Heq.
  vm_compute in Heq. discriminate Heq.
Qed.

Lemma exact_steps_on_grid {V : Type} `{!fixedpoint.Value V}
    (side : SideType) (s : Strategy V) (edge : float) (i : nat) :
  is_Some (exact edge) →
  is_Some (exact (fixedpoint.Float64 (GridPips s))) →
  (∀ j, (j < i)%nat →
        exact_step (upwards side) (fixedpoint.Float64 (GridPips s))
          (Nat.iter j (away side s) edge) (Nat.iter (S j) (away side s) edge)) →
  on_grid (upwards side) edge (fixedpoint.Float64 (GridPips s)) i
    (Nat.iter i (away side s) edge).
Proof.
  intros [e He] [st Hst]. induction i as [|i IH]; intros Hsteps.
  - unfold on_grid. change (Nat.iter 0 (away side s) edge) with edge.
    rewrite He, Hst. change (inject_Z (Z.of_nat 0)) with 0%Q.
    destruct (upwards side); ring.
  - assert (on_grid (upwards side) edge (fixedpoint.Float64 (GridPips s)) i
              (Nat.iter i (away side s) edge)) as Hi
      by (apply IH; intros j Hj; apply Hsteps; lia).
    pose proof (Hsteps i (Nat.lt_succ_diag_r i)) as Hstep.
    unfold on_grid in Hi |- *. unfold exact_step in Hstep.
    rewrite He, Hst in Hi |- *. rewrite Hst in Hstep.
    destruct (exact (Nat.iter i (away side s) edge)) as [p|]; [|done].
    destruct (exact (Nat.iter (S i) (away side s) edge)) as [p'|]; [|done].
    rewrite Hstep, Nat2Z.inj_succ. unfold Z.succ. rewrite inject_Z_plus.
    destruct (upwards side); rewrite Hi; ring.
Qed.

(** C4, amended. The price of rung [i] is the band edge after [i]
    successive binary64 subtractions (buys) or additions (sells) of
    [s.GridPips.Float64()], each one rounded. It is exactly the band edge
    minus (buys) or plus (sells) [i] times that step whenever the band
    edge and the step are finite and each of these [i] operations is
    exact. *)
Theorem rung_price_recurrence {V : Type} `{!fixedpoint.Value V}
    (side : SideType) (s : Strategy V) (n : nat) (edge : float) (i : nat)
    (r : SubmitOrder) :
  ladder side s n edge !! i = Some r →
  Price r =
    Nat.iter i
      (λ p, match side with
            | SideTypeBuy => (p - fixedpoint.Float64 (GridPips s))%float
            | SideTypeSell => (p + fixedpoint.Float64 (GridPips s))%float
            end)
      edge
  ∧ (is_Some (exact edge) →
     is_Some (exact (fixedpoint.Float64 (GridPips s))) →
     (∀ j, (j < i)%nat →
           exact_step (upwards side) (fixedpoint.Float64 (GridPips s))
             (Nat.iter j (away side s) edge)
             (Nat.iter (S j) (away side s) edge)) →
     on_grid (upwards side) edge (fixedpoint.Float64 (GridPips s)) i (Price r)).
Proof.
  intros Hr.
  assert (i < n)%nat as Hi.
  { apply lookup_lt_Some in Hr. by rewrite length_ladder in Hr. }
  rewrite ladder_lookup in Hr by done.
  injection Hr as <-. simpl. split.
  - apply (f_equal (λ f, Nat.iter i f edge)). by destruct side.
  - apply exact_steps_on_grid.
Qed.

(** Rung 2 of the buy ladder from 100 with step 1: both subtractions are
    exact and the price is 100 − 2·1. *)
Lemma rung_price_recurrence_witness :
  let s := sample.config 100000000 3 (sample.bands 100 110) in
  Price (rung SideTypeBuy s 98)
  = Nat.iter 2 (λ p, (p - fixedpoint.Float64 (GridPips s))%float) 100%float
  ∧ on_grid false 100 (fixedpoint.Float64 (GridPips s)) 2
      (Price (rung SideTypeBuy s 98)).
Proof.
  intros s.
  destruct (rung_price_recurrence SideTypeBuy s 3 100 2 (rung SideTypeBuy s 98))
    as [Hprice Hgrid].
  - vm_compute. reflexivity.
  - split; [exact Hprice|]. apply Hgrid.
    + vm_compute. eauto.
    + vm_compute. eauto.
    + intros j Hj. destruct j as [|[|j]]; [| |lia]; vm_compute; reflexivity.
Defined.

(** ** The order book *)

Section Book.
Implicit Types (b : LocalActiveOrderBook) (order o : Order) (id : N).

Lemma book_eq b1 b2 : Bids b1 = Bids b2 → Asks b1 = Asks b2 → b1 = b2.
Proof. destruct b1, b2; simpl; congruence. Qed.

Lemma Add_cons order orders b : Add (order :: orders) b = Add orders (upsert order b).
Proof. done. Qed.

Lemma Delete_untracked order b :
  untracked (OrderID order) b → Delete order b = b.
Proof.
  intros [Hb Ha]. apply book_eq; simpl; by apply delete_id.
Qed.

Lemma untracked_Delete order b : untracked (OrderID order) (Delete order b).
Proof. split; apply lookup_delete_eq. Qed.

Lemma untracked_Delete_other id order b :
  untracked id b → untracked id (Delete order b).
Proof.
  intros [Hb Ha]. split; simpl; rewrite lookup_delete_None; by right.
Qed.

Lemma untracked_upsert_other id order b :
  OrderID order ≠ id → untracked id b → untracked id (upsert order b).
Proof.
  intros Hne [Hb Ha]. unfold upsert.
  destruct (Side (Request order)); split; simpl; by rewrite ?lookup_insert_ne.
Qed.

(** The snapshot holds exactly the entries of the two mappings. *)
Lemma elem_of_Orders o b :
  o ∈ Orders b ↔ ∃ id, Bids b !! id = Some o ∨ Asks b !! id = Some o.
Proof.
  unfold Orders. rewrite elem_of_app, !list_elem_of_fmap. split.
  - intros [([id o'] & -> & Hin)|([id o'] & -> & Hin)];
      apply elem_of_map_to_list in Hin; exists id; simpl; auto.
  - intros [id [Hid|Hid]]; [left|right]; exists (id, o); split; try done;
      by apply elem_of_map_to_list.
Qed.

Lemma keyed_new : keyed NewLocalActiveOrderBook.
Proof. split; intros id o Hid; simpl in Hid; by rewrite lookup_empty in Hid. Qed.

Lemma keyed_upsert order b : keyed b → keyed (upsert order b).
Proof.
  intros [Hb Ha]. unfold upsert.
  destruct (Side (Request order)); split; simpl; try done; intros id o;
    rewrite lookup_insert_Some; intros [[<- <-]|[_ Hid]]; eauto.
Qed.

Lemma keyed_Add orders b : keyed b → keyed (Add orders b).
Proof.
  revert b. induction orders as [|o orders IH]; intros b Hb; [done|].
  rewrite Add_cons. by apply IH, keyed_upsert.
Qed.

Lemma keyed_Delete order b : keyed b → keyed (Delete order b).
Proof.
  intros [Hb Ha]. split; simpl; intros id o;
    rewrite lookup_delete_Some; intros [_ Hid]; eauto.
Qed.

End Book.

(** ** The order-update callback *)

Section Reconciler.
Context {V : Type}.
Implicit Types (s : Strategy V) (order o : Order).

(** The callback by cases: ignored, removed, or upserted. *)
Lemma onOrderUpdate_cases order s :
  onOrderUpdate order s =
    if negb (String.eqb (types.Symbol (Request order)) (Symbol s)) then s
    else if terminal (Status order)
         then set_activeOrders (Delete order (activeOrders s)) s
         else set_activeOrders (upsert order (activeOrders s)) s.
Proof.
  unfold onOrderUpdate.
  destruct (negb _); [done|]. by destruct (Status order).
Qed.

Lemma Symbol_onOrderUpdate order s : Symbol (onOrderUpdate order s) = Symbol s.
Proof.
  rewrite onOrderUpdate_cases.
  destruct (negb _); [done|]. by destruct (terminal _).
Qed.

Lemma Symbol_reconcile orders s : Symbol (reconcile orders s) = Symbol s.
Proof.
  revert s. induction orders as [|o orders IH]; intros s; [done|].
  unfold reconcile in *. simpl. by rewrite IH, Symbol_onOrderUpdate.
Qed.

Lemma reconcile_app l k s : reconcile (l ++ k) s = reconcile k (reconcile l s).
Proof. unfold reconcile. by rewrite foldl_app. Qed.

Lemma reconcile_cons o l s : reconcile (o :: l) s = reconcile l (onOrderUpdate o s).
Proof. done. Qed.

Lemma keyed_onOrderUpdate order s :
  keyed (activeOrders s) → keyed (activeOrders (onOrderUpdate order s)).
Proof.
  intros Hk. rewrite onOrderUpdate_cases.
  destruct (negb _); [done|].
  destruct (terminal _); simpl; [by apply keyed_Delete|by apply keyed_upsert].
Qed.

(** An id that is not in the book stays out of it through a notification
    that is for another id, for another instrument, or terminal. *)
Lemma untracked_onOrderUpdate id o s :
  (OrderID o = id → types.Symbol (Request o) = Symbol s →
   terminal (Status o) = true) →
  untracked id (activeOrders s) →
  untracked id (activeOrders (onOrderUpdate o s)).
Proof.
  intros Hterm Hun. rewrite onOrderUpdate_cases.
  destruct (String.eqb _ _) eqn:Hsym; simpl; [|done].
  apply String.eqb_eq in Hsym.
  destruct (terminal (Status o)) eqn:Hst; simpl.
  - by apply untracked_Delete_other.
  - apply untracked_upsert_other; [|done].
    intros Hid. specialize (Hterm Hid Hsym). congruence.
Qed.

End Reconciler.

(** C2 does not hold as stated. A New notification for an id the book
    does not hold, on the configured instrument: the callback files the
    order under the bids, so the book is not what it was. *)
Lemma untracked_new_is_added :
  let s := sample.config 100000000 3 (sample.bands 100 110) in
  let order := sample.notice 7 "BTCUSDT" SideTypeBuy OrderStatusNew in
  untracked (OrderID order) (activeOrders s)
  ∧ Bids (activeOrders (onOrderUpdate order s)) !! 7%N = Some order
  ∧ NumOfBids (activeOrders s) = 0%Z
  ∧ NumOfBids (activeOrders (onOrderUpdate order s)) = 1%Z
  ∧ activeOrders (onOrderUpdate order s) ≠ activeOrders s.
Proof.
  intros s order.
  split; [by vm_compute|].
  split; [by vm_compute|].
  split; [by vm_compute|].
  split; [by vm_compute|].
  intros Heq. apply (f_equal (λ b, Bids b !! 7%N)) in Heq.
  vm_compute in Heq. discriminate Heq.
Qed.

(** C2, amended. A notification for another instrument than the configured
    symbol, or for an untracked id with status Filled, Canceled or
    Rejected, leaves the strategy as it was: the same book, the same
    counts, the same snapshot. *)
Theorem notification_frame {V : Type} (s : Strategy V) (order : Order) :
  types.Symbol (Request order) ≠ Symbol s
  ∨ (untracked (OrderID order) (activeOrders s) ∧ terminal (Status order) = true) →
  onOrderUpdate order s = s
  ∧ activeOrders (onOrderUpdate order s) = activeOrders s
  ∧ NumOfBids (activeOrders (onOrderUpdate order s)) = NumOfBids (activeOrders s)
  ∧ NumOfAsks (activeOrders (onOrderUpdate order s)) = NumOfAsks (activeOrders s)
  ∧ Orders (activeOrders (onOrderUpdate order s)) = Orders (activeOrders s).
Proof.
  intros Hcase.
  assert (onOrderUpdate order s = s) as ->; [|done].
  rewrite onOrderUpdate_cases.
  destruct Hcase as [Hsym|[Hun Hterm]].
  - apply String.eqb_neq in Hsym. by rewrite Hsym.
  - destruct (negb _); [done|]. rewrite Hterm.
    rewrite Delete_untracked by done. apply set_activeOrders_id.
Qed.

(** A Canceled notification for id 7, which an empty book does not hold,
    and a New notification for another instrument. *)
Lemma notification_frame_witness :
  let s := sample.config 100000000 3 (sample.bands 100 110) in
  onOrderUpdate (sample.notice 7 "BTCUSDT" SideTypeBuy OrderStatusCanceled) s = s
  ∧ onOrderUpdate (sample.notice 7 "ETHUSDT" SideTypeBuy OrderStatusNew) s = s.
Proof.
  intros s. split.
  - apply (notification_frame s
             (sample.notice 7 "BTCUSDT" SideTypeBuy OrderStatusCanceled)).
    right. by vm_compute.
  - apply (notification_frame s
             (sample.notice 7 "ETHUSDT" SideTypeBuy OrderStatusNew)).
    left. vm_compute. discriminate.
Defined.

(** C3 does not hold as stated. Order 9 is reported New, then Filled, and
    then a late PartiallyFilled notification arrives: the order is out of
    the book after the second notification and rests in it again after the
    third. *)
Lemma filled_order_reappears :
  let s := sample.config 100000000 3 (sample.bands 100 110) in
  let new := sample.notice 9 "BTCUSDT" SideTypeSell OrderStatusNew in
  let filled := sample.notice 9 "BTCUSDT" SideTypeSell OrderStatusFilled in
  let late := sample.notice 9 "BTCUSDT" SideTypeSell OrderStatusPartiallyFilled in
  untracked 9 (activeOrders (reconcile [new; filled] s))
  ∧ Asks (activeOrders (reconcile [new; filled; late] s)) !! 9%N = Some late
  ∧ late ∈ Orders (activeOrders (reconcile [new; filled; late] s)).
Proof.
  intros s new filled late.
  split; [by vm_compute|].
  assert (Asks (activeOrders (reconcile [new; filled; late] s)) !! 9%N = Some late)
    as Hlate by (by vm_compute).
  split; [done|].
  apply elem_of_Orders. exists 9%N. by right.
Qed.

Lemma Len_delete (id : N) (m : gmap N Order) :
  Len (delete id m) = (Len m - match m !! id with Some _ => 1 | None => 0 end)%Z.
Proof.
  unfold Len. rewrite map_size_delete.
  destruct (m !! id) as [o|] eqn:Hid; simpl; [|lia].
  assert (size m ≠ 0%nat) by (apply (map_size_ne_0_lookup_2 m id); eauto).
  lia.
Qed.

(** C5. A notification on the configured instrument, for an id the book
    tracks, with status Filled, Canceled or Rejected: whichever of the
    three statuses it carries, the book afterwards is the book with that id
    deleted. The id is in neither mapping, each side's count is lowered by
    the entry it held, the snapshot holds exactly the entries filed under
    the other ids, and, every entry being filed under its own id, no order
    of the snapshot has that id. *)
Theorem terminal_notification_removes {V : Type} (s : Strategy V) (order : Order) :
  types.Symbol (Request order) = Symbol s →
  tracked (OrderID order) (activeOrders s) →
  terminal (Status order) = true →
  let id := OrderID order in
  let b := activeOrders s in
  let b' := activeOrders (onOrderUpdate order s) in
  b' = {| Bids := delete id (Bids b); Asks := delete id (Asks b) |}
  ∧ Bids b' !! id = None
  ∧ Asks b' !! id = None
  ∧ NumOfBids b' = (NumOfBids b - match Bids b !! id with Some _ => 1 | None => 0 end)%Z
  ∧ NumOfAsks b' = (NumOfAsks b - match Asks b !! id with Some _ => 1 | None => 0 end)%Z
  ∧ (NumOfBids b' + NumOfAsks b' < NumOfBids b + NumOfAsks b)%Z
  ∧ (∀ o, o ∈ Orders b' ↔
          ∃ k, k ≠ id ∧ (Bids b !! k = Some o ∨ Asks b !! k = Some o))
  ∧ (keyed b → ∀ o, o ∈ Orders b' → OrderID o ≠ id).
Proof.
  intros Hsym Htracked Hterm id b b'.
  assert (b' = Delete order b) as Hb'.
  { subst b' b. rewrite onOrderUpdate_cases.
    apply String.eqb_eq in Hsym. by rewrite Hsym, Hterm. }
  assert (∀ o, o ∈ Orders b' ↔
               ∃ k, k ≠ id ∧ (Bids b !! k = Some o ∨ Asks b !! k = Some o)) as Hsnap.
  { intros o. rewrite Hb', elem_of_Orders. simpl. fold id b. split.
    - intros [k [Hk|Hk]]; apply lookup_delete_Some in Hk as [Hne Hk];
        exists k; split; auto.
    - intros (k & Hne & [Hk|Hk]); exists k; [left|right];
        apply lookup_delete_Some; auto. }
  clearbody b'. subst b'.
  assert (NumOfBids (Delete order b)
          = (NumOfBids b - match Bids b !! id with Some _ => 1 | None => 0 end)%Z)
    as Hnb by apply Len_delete.
  assert (NumOfAsks (Delete order b)
          = (NumOfAsks b - match Asks b !! id with Some _ => 1 | None => 0 end)%Z)
    as Hna by apply Len_delete.
  split; [done|].
  split; [apply lookup_delete_eq|].
  split; [apply lookup_delete_eq|].
  split; [done|]. split; [done|].
  split.
  - rewrite Hnb, Hna.
    destruct Htracked as [[o Ho]|[o Ho]]; fold b id in Ho; rewrite Ho;
      repeat case_match; lia.
  - split; [done|].
    intros [Hkb Hka] o Ho.
    apply Hsnap in Ho as (k & Hne & [Hk|Hk]).
    + by rewrite (Hkb k o Hk).
    + by rewrite (Hka k o Hk).
Qed.

(** Orders 9 (a bid) and 10 (an ask) rest in the book; order 9 is reported
    Filled. *)
Lemma terminal_notification_removes_witness :
  let s := reconcile [sample.notice 9 "BTCUSDT" SideTypeBuy OrderStatusNew;
                      sample.notice 10 "BTCUSDT" SideTypeSell OrderStatusNew]
             (sample.config 100000000 3 (sample.bands 100 110)) in
  let filled := sample.notice 9 "BTCUSDT" SideTypeBuy OrderStatusFilled in
  Bids (activeOrders (onOrderUpdate filled s)) !! 9%N = None
  ∧ NumOfBids (activeOrders (onOrderUpdate filled s)) = 0%Z
  ∧ NumOfAsks (activeOrders (onOrderUpdate filled s)) = 1%Z.
Proof.
  intros s filled.
  destruct (terminal_notification_removes s filled) as (_ & Hb & _ & Hnb & Hna & _).
  - by vm_compute.
  - left. vm_compute. eauto.
  - by vm_compute.
  - split; [exact Hb|]. split.
    + rewrite Hnb. by vm_compute.
    + rewrite Hna. by vm_compute.
Defined.

(** ** One side of a tick *)

Section Tick.
Context {V : Type} `{!fixedpoint.Value V}.
Context {E : Type} `{!bbgo.OrderExecutor E}.
Implicit Types (s : Strategy V) (side : SideType) (w : World V E).

Lemma updateOrders_replenish session w :
  updateOrders session w
  = replenish SideTypeSell session (replenish SideTypeBuy session w).
Proof. done. Qed.

(** A side's update changes nothing of the strategy but the book. *)
Lemma updateSide_config side session w :
  strategy (updateSide side session w)
  = set_activeOrders (activeOrders (strategy (updateSide side session w)))
      (strategy w).
Proof.
  destruct (updateSide_cases side session w)
    as [[-> _]|(_ & _ & oe & orders & err & _ & ->)]; simpl.
  - by rewrite set_activeOrders_id.
  - destruct err; [by rewrite set_activeOrders_id|done].
Qed.

Lemma replenish_config side session w :
  strategy (replenish side session w)
  = set_activeOrders (activeOrders (strategy (replenish side session w)))
      (strategy w).
Proof.
  unfold replenish. case_match; [apply updateSide_config|].
  by rewrite set_activeOrders_id.
Qed.

Lemma GridNum_replenish side session w :
  GridNum (strategy (replenish side session w)) = GridNum (strategy w).
Proof. by rewrite replenish_config. Qed.

Lemma unavailable_set_activeOrders side session b s :
  unavailable side session (set_activeOrders b s) ↔ unavailable side session s.
Proof. by destruct side. Qed.

Lemma replenish_skip side session w :
  unavailable side session (strategy w) ∨ (deficit side (strategy w) ≤ 0)%Z →
  replenish side session w = w.
Proof.
  intros Hskip. unfold replenish.
  destruct (Z.ltb_spec (Len (mappingOf side (activeOrders (strategy w))))
              (GridNum (strategy w))) as [Hlt|Hge]; [|done].
  apply updateSide_skip. left.
  destruct Hskip as [?|Hle]; [done|]. unfold deficit in Hle. lia.
Qed.

(** Every book the strategy builds files each entry under its own id. *)
Lemma keyed_updateSide side session w :
  keyed (activeOrders (strategy w)) →
  keyed (activeOrders (strategy (updateSide side session w))).
Proof.
  intros Hk.
  destruct (updateSide_cases side session w)
    as [[-> _]|(_ & _ & oe & orders & err & _ & ->)]; [done|].
  simpl. destruct err; [done|]. by apply keyed_Add.
Qed.

Lemma keyed_updateOrders session w :
  keyed (activeOrders (strategy w)) →
  keyed (activeOrders (strategy (updateOrders session w))).
Proof.
  intros Hk. rewrite updateOrders_replenish. unfold replenish.
  repeat case_match; repeat apply keyed_updateSide; done.
Qed.

Lemma keyed_Run (oe : E) session s :
  keyed (activeOrders (strategy (Run oe session s))).
Proof. apply keyed_updateOrders. simpl. apply keyed_new. Qed.

End Tick.

(** ** Failed submissions *)

(** C6. When the call of [SubmitOrders] that a side's update makes returns
    an error, the update leaves the strategy, and so the book, as they were
    before the call, whatever orders came back with the error; the update
    returns normally, and the side's deficit at the next tick is the one it
    had. *)
Theorem failed_submission_keeps_book {V : Type} `{!fixedpoint.Value V}
    {E : Type} `{!bbgo.OrderExecutor E}
    (side : SideType) (session : bbgo.ExchangeSession) (w : World V E)
    (batch : list SubmitOrder) (orders : list Order) (e : string) :
  submitted (updateSide side session w)
  = submitted w ++ [(batch, (orders, Some e))] →
  strategy (updateSide side session w) = strategy w
  ∧ activeOrders (strategy (updateSide side session w)) = activeOrders (strategy w)
  ∧ deficit side (strategy (updateSide side session w)) = deficit side (strategy w)
  ∧ deficit (opposite side) (strategy (updateSide side session w))
    = deficit (opposite side) (strategy w).
Proof.
  intros Hlog.
  assert (strategy (updateSide side session w) = strategy w) as ->; [|done].
  destruct (updateSide_cases side session w)
    as [[Heq _]|(_ & _ & oe & orders' & err & _ & Heq)]; rewrite Heq in Hlog |- *.
  - apply (f_equal length) in Hlog. rewrite length_app in Hlog. simpl in Hlog. lia.
  - simpl in Hlog |- *. apply app_inv_head in Hlog.
    injection Hlog as _ _ ->. done.
Qed.

(** The buy side against an executor that is down. *)
Lemma failed_submission_keeps_book_witness :
  let w := sample.start sample.down
             (sample.config 100000000 3 (sample.bands 100 110)) in
  activeOrders (strategy (updateSide SideTypeBuy (sample.funded 1 1000) w))
  = activeOrders (strategy w).
Proof.
  intros w.
  refine (proj1 (proj2 (failed_submission_keeps_book SideTypeBuy
            (sample.funded 1 1000) w
            (bidOrders (strategy w) 3 100)
            (sample.accept 1 (bidOrders (strategy w) 3 100))
            "exchange unavailable" _))).
  vm_compute. reflexivity.
Defined.

(** ** Unavailable balance or band *)

(** C7. When the balance of a side's currency (quote for buys, base for
    sells) is absent or not positive, or the side's band is not positive,
    the side's update returns at once: nothing is submitted and the world
    is as it was. A tick then does exactly what the other side alone
    does. *)
Theorem unavailable_side_is_skipped {V : Type} `{!fixedpoint.Value V}
    {E : Type} `{!bbgo.OrderExecutor E}
    (side : SideType) (session : bbgo.ExchangeSession) (w : World V E) :
  unavailable side session (strategy w) →
  updateSide side session w = w
  ∧ submitted (updateSide side session w) = submitted w
  ∧ updateOrders session w = replenish (opposite side) session w.
Proof.
  intros Hun.
  assert (updateSide side session w = w) as Hskip
    by (apply updateSide_skip; by left).
  rewrite Hskip. split; [done|]. split; [done|].
  rewrite updateOrders_replenish. destruct side; simpl.
  - by rewrite (replenish_skip SideTypeBuy) by (by left).
  - apply replenish_skip. left.
    rewrite replenish_config. by apply unavailable_set_activeOrders.
Qed.

(** No quote balance at all, and a base balance of 1: no buy order is
    submitted, and the tick submits the three sell orders. *)
Lemma unavailable_side_is_skipped_witness :
  let session :=
    {| bbgo.Account_ :=
         {| bbgo.Balances := <["BTC" := sample.balance "BTC" 1]> ∅ |} |} in
  let w := sample.start {| sample.next_id := 1 |}
             (sample.config 100000000 3 (sample.bands 100 110)) in
  updateSide SideTypeBuy session w = w
  ∧ (submitted (updateOrders session w)).*1
    = [ [sample.request SideTypeSell 110; sample.request SideTypeSell 111;
         sample.request SideTypeSell 112] ].
Proof.
  intros session w.
  destruct (unavailable_side_is_skipped SideTypeBuy session w) as (Hskip & _ & Htick).
  - left. vm_compute. exact I.
  - split; [exact Hskip|]. rewrite Htick. vm_compute. reflexivity.
Defined.

(** ** The default grid number *)

(** C10. When the configured GridNum is 0, [Run] sets it to 2 before it
    creates the book and starts the loop, and the first [updateOrders] runs
    with 2. A GridNum that is not 0 is kept. *)
Theorem grid_num_defaults_to_two {V : Type} `{!fixedpoint.Value V}
    {E : Type} `{!bbgo.OrderExecutor E}
    (orderExecutor : E) (session : bbgo.ExchangeSession) (s : Strategy V) :
  (GridNum s = 0%Z →
   GridNum (RunSetup s) = 2%Z
   ∧ GridNum (strategy (Run orderExecutor session s)) = 2%Z)
  ∧ (GridNum s ≠ 0%Z →
     GridNum (RunSetup s) = GridNum s
     ∧ GridNum (strategy (Run orderExecutor session s)) = GridNum s).
Proof.
  assert (GridNum (strategy (Run orderExecutor session s)) = GridNum (RunSetup s))
    as Hrun.
  { unfold Run. by rewrite updateOrders_replenish, !GridNum_replenish. }
  rewrite Hrun. unfold RunSetup. simpl.
  split; intros Hn.
  - by rewrite Hn.
  - apply Z.eqb_neq in Hn. by rewrite Hn.
Qed.

(** A configuration without a grid number, on a funded account: the first
    [updateOrders] submits two buy orders and two sell orders. *)
Lemma grid_num_defaults_to_two_witness :
  let s := sample.config 100000000 0 (sample.bands 100 110) in
  GridNum (RunSetup s) = 2%Z
  ∧ GridNum (strategy (Run {| sample.next_id := 1 |} (sample.funded 1 1000) s)) = 2%Z.
Proof.
  intros s.
  apply (proj1 (grid_num_defaults_to_two {| sample.next_id := 1 |}
                  (sample.funded 1 1000) s)).
  reflexivity.
Defined.

(** ** Two ticks in a row *)

Section Acknowledged.
Implicit Types (b : LocalActiveOrderBook) (side : SideType).

Lemma upsert_side side o b :
  Side (Request o) = side →
  mappingOf side (upsert o b) = <[OrderID o := o]> (mappingOf side b)
  ∧ mappingOf (opposite side) (upsert o b) = mappingOf (opposite side) b.
Proof. intros <-. unfold upsert. by destruct (Side (Request o)). Qed.

(** Orders of one side under new, distinct ids each add one entry to
    that side and leave the other side alone. *)
Lemma Add_fresh side orders b :
  Forall (λ o, Side (Request o) = side) orders →
  NoDup (OrderID <$> orders) →
  Forall (λ o, mappingOf side b !! OrderID o = None) orders →
  Len (mappingOf side (Add orders b))
  = (Len (mappingOf side b) + Z.of_nat (length orders))%Z
  ∧ mappingOf (opposite side) (Add orders b) = mappingOf (opposite side) b.
Proof.
  intros Hside. revert b.
  induction Hside as [|o orders Ho _ IH]; intros b Hnd Hnew.
  { simpl. split; [lia|done]. }
  rewrite fmap_cons in Hnd. apply NoDup_cons in Hnd as [Hnotin Hnd].
  apply Forall_cons in Hnew as [Hnew_o Hnew].
  destruct (upsert_side side o b Ho) as [Hins Hopp].
  rewrite Add_cons.
  destruct (IH (upsert o b) Hnd) as [Hlen Hother].
  - rewrite Hins. apply Forall_forall. intros o' Hin.
    rewrite lookup_insert_ne.
    + by apply (proj1 (Forall_forall _ _) Hnew).
    + intros Heq. apply Hnotin. rewrite Heq. by apply list_elem_of_fmap_2.
  - rewrite Hlen, Hother, Hopp, Hins. split; [|done].
    unfold Len. rewrite map_size_insert_None by done. simpl. lia.
Qed.

Lemma acknowledged_sides side (batch : list SubmitOrder) (orders : list Order) :
  Forall2 (λ r o, Side (Request o) = Side r) batch orders →
  Forall (λ r, Side r = side) batch →
  Forall (λ o, Side (Request o) = side) orders.
Proof.
  induction 1 as [|r o batch orders Hro _ IH]; intros Hb; [constructor|].
  apply Forall_cons in Hb as [Hr Hb].
  constructor; [congruence|by apply IH].
Qed.

End Acknowledged.

Section TwoTicks.
Context {V : Type} `{!fixedpoint.Value V}.
Context {E : Type} `{!bbgo.OrderExecutor E}.
Implicit Types (s : Strategy V) (side : SideType) (w : World V E).

Lemma deficit_set_activeOrders side b s :
  deficit side (set_activeOrders b s) = (GridNum s - Len (mappingOf side b))%Z.
Proof. done. Qed.

(** One side of a tick, by cases: nothing happens, or one ladder of
    exactly the deficit is submitted. *)
Lemma replenish_outcome side session w :
  let s := strategy w in
  is_int (GridNum s) →
  (replenish side session w = w
   ∧ (unavailable side session s ∨ (deficit side s ≤ 0)%Z))
  ∨ ((0 < deficit side s)%Z ∧
     ∃ oe orders err,
       replenish side session w =
         {| strategy :=
              match err with
              | Some _ => s
              | None => set_activeOrders (Add orders (activeOrders s)) s
              end;
            orderExecutor := oe;
            submitted :=
              submitted w ++
              [(ladder side s (Z.to_nat (deficit side s)) (bandEdge side (boll s)),
                (orders, err))] |}).
Proof.
  intros s Hint. subst s. unfold replenish.
  set (s := strategy w) in *.
  destruct (Z.ltb_spec (Len (mappingOf side (activeOrders s))) (GridNum s))
    as [Hlt|Hge].
  2: { left. split; [done|]. right. unfold deficit. lia. }
  assert (is_int (deficit side s)) as Hd.
  { pose proof (Len_nonneg (mappingOf side (activeOrders s))).
    unfold is_int, int_min, int_max, deficit in *. lia. }
  assert (0 < deficit side s)%Z as Hpos by (unfold deficit; lia).
  pose proof (updateSide_cases side session w) as Hcases.
  cbv zeta in Hcases. fold s in Hcases.
  rewrite int_wrap_id in Hcases by done.
  destruct Hcases as [[Heq Hskip]|(_ & _ & oe & orders & err & _ & Heq)].
  - left. split; [done|]. destruct Hskip; [by left|by right].
  - right. split; [done|]. by exists oe, orders, err.
Qed.

(** One side of a tick whose submission, if any, succeeded: the other
    side's mapping is untouched, and the side either was skipped or has
    no deficit left. *)
Lemma replenish_acknowledged side session w b0 evs :
  let s := strategy w in
  let w' := replenish side session w in
  is_int (GridNum s) →
  mappingOf side b0 = mappingOf side (activeOrders s) →
  submitted w' = submitted w ++ evs →
  Forall (acknowledged b0) evs →
  mappingOf (opposite side) (activeOrders (strategy w'))
  = mappingOf (opposite side) (activeOrders s)
  ∧ ((w' = w ∧ (unavailable side session s ∨ (deficit side s ≤ 0)%Z))
     ∨ ((0 < deficit side s)%Z ∧ deficit side (strategy w') = 0%Z)).
Proof.
  intros s w' Hint Hb0 Hlog Hack. subst w'.
  pose proof (replenish_outcome side session w Hint) as Hcases.
  cbv zeta in Hcases. subst s. set (s := strategy w) in *.
  destruct Hcases as [[Heq Hskip]|(Hpos & oe & orders & err & Heq)].
  { rewrite Heq. split; [done|]. by left. }
  rewrite Heq in Hlog |- *. simpl in Hlog |- *.
  apply app_inv_head in Hlog. subst evs.
  apply Forall_singleton in Hack as (-> & Hsides & Hnd & Hnew).
  assert (length orders = Z.to_nat (deficit side s)) as Hlen.
  { rewrite <- (Forall2_length _ _ _ Hsides). apply length_ladder. }
  destruct (Add_fresh side orders (activeOrders s)) as [Hcount Hother].
  - eapply acknowledged_sides; [exact Hsides|apply ladder_sides].
  - done.
  - rewrite <- Hb0. eapply Forall_impl; [exact Hnew|].
    intros o [Hbid Hask]. by destruct side.
  - simpl. split; [done|]. right. split; [done|].
    rewrite deficit_set_activeOrders, Hcount, Hlen.
    unfold deficit in *. lia.
Qed.

Lemma replenish_log side session w :
  ∃ evs, submitted (replenish side session w) = submitted w ++ evs.
Proof.
  unfold replenish. case_match; [|exists []; by rewrite app_nil_r].
  destruct (updateSide_cases side session w)
    as [[-> _]|(_ & _ & oe & orders & err & _ & ->)].
  - exists []. by rewrite app_nil_r.
  - by eexists.
Qed.

End TwoTicks.

(** C8. Let one call of [updateOrders] be made in which every submission
    succeeds: each call of [SubmitOrders] returns no error and one order
    per request, on the request's side, under ids that are pairwise
    distinct and not in the book. A second call with the same balances and
    bands and the book the first call left then changes nothing and submits
    nothing. For each side whose balance and band are available, the
    deficit after the first call is 0 if there was one to fill, and is the
    non-positive deficit it was otherwise. *)
Theorem second_tick_submits_nothing {V : Type} `{!fixedpoint.Value V}
    {E : Type} `{!bbgo.OrderExecutor E}
    (session : bbgo.ExchangeSession) (w : World V E) (evs : list Submission) :
  let w1 := updateOrders session w in
  is_int (GridNum (strategy w)) →
  submitted w1 = submitted w ++ evs →
  Forall (acknowledged (activeOrders (strategy w))) evs →
  updateOrders session w1 = w1
  ∧ submitted (updateOrders session w1) = submitted w1
  ∧ ∀ side, ¬ unavailable side session (strategy w) →
      deficit side (strategy w1) = Z.min 0 (deficit side (strategy w)).
Proof.
  intros w1 Hint Hlog Hack. subst w1.
  rewrite !updateOrders_replenish in *.
  set (wb := replenish SideTypeBuy session w) in *.
  set (w1 := replenish SideTypeSell session wb) in *.
  destruct (replenish_log SideTypeBuy session w) as [evB HB]. fold wb in HB.
  destruct (replenish_log SideTypeSell session wb) as [evS HS]. fold w1 in HS.
  assert (evs = evB ++ evS) as ->.
  { rewrite HS, HB, <- app_assoc in Hlog. by apply app_inv_head in Hlog. }
  apply Forall_app in Hack as [HackB HackS].
  assert (GridNum (strategy wb) = GridNum (strategy w)) as HNb
    by apply GridNum_replenish.
  assert (GridNum (strategy w1) = GridNum (strategy wb)) as HN1
    by apply GridNum_replenish.
  destruct (replenish_acknowledged SideTypeBuy session w
              (activeOrders (strategy w)) evB Hint eq_refl HB HackB)
    as [HaskB HcaseB]. fold wb in HaskB, HcaseB. simpl in HaskB.
  destruct (replenish_acknowledged SideTypeSell session wb
              (activeOrders (strategy w)) evS)
    as [HbidS HcaseS]; [by rewrite HNb|by simpl|done|done|].
  fold w1 in HbidS, HcaseS. simpl in HbidS.
  assert (∀ side, unavailable side session (strategy wb)
                  ↔ unavailable side session (strategy w)) as Hunb.
  { intros side. unfold wb. rewrite replenish_config.
    apply unavailable_set_activeOrders. }
  assert (∀ side, unavailable side session (strategy w1)
                  ↔ unavailable side session (strategy w)) as Hun1.
  { intros side. unfold w1. rewrite replenish_config.
    rewrite unavailable_set_activeOrders. apply Hunb. }
  assert (deficit SideTypeBuy (strategy w1) = deficit SideTypeBuy (strategy wb))
    as HdB by (unfold deficit; simpl; by rewrite HN1, HbidS).
  assert (deficit SideTypeSell (strategy wb) = deficit SideTypeSell (strategy w))
    as HdS by (unfold deficit; simpl; by rewrite HNb, HaskB).
  assert (replenish SideTypeBuy session w1 = w1) as Hbuy2.
  { apply replenish_skip. rewrite HdB.
    destruct HcaseB as [[Heq [Hun|Hle]]|[_ Hzero]].
    - left. by apply Hun1.
    - right. by rewrite Heq.
    - right. lia. }
  assert (replenish SideTypeSell session w1 = w1) as Hsell2.
  { apply replenish_skip.
    destruct HcaseS as [[Heq [Hun|Hle]]|[_ Hzero]].
    - left. by apply Hun1, Hunb.
    - right. by rewrite Heq.
    - right. lia. }
  rewrite Hbuy2, Hsell2.
  split; [done|]. split; [done|].
  intros [] Hav.
  - rewrite HdB.
    destruct HcaseB as [[Heq [Hun|Hle]]|[Hpos Hzero]]; [done| |lia].
    rewrite Heq. lia.
  - rewrite <- HdS.
    destruct HcaseS as [[Heq [Hun|Hle]]|[Hpos Hzero]]; [|rewrite Heq; lia|lia].
    by apply Hunb in Hun.
Qed.

(** An empty book, GridNum 3, bands 100 and 110, both balances positive,
    and an executor that accepts every batch under ids 1, 2, ...: the
    first call submits three buy and three sell orders, the second none. *)
Lemma second_tick_submits_nothing_witness :
  let session := sample.funded 1 1000 in
  let w := sample.start {| sample.next_id := 1 |}
             (sample.config 100000000 3 (sample.bands 100 110)) in
  length (submitted (updateOrders session w)) = 2%nat
  ∧ submitted (updateOrders session (updateOrders session w))
    = submitted (updateOrders session w)
  ∧ deficit SideTypeBuy (strategy (updateOrders session w)) = 0%Z
  ∧ deficit SideTypeSell (strategy (updateOrders session w)) = 0%Z.
Proof.
  intros session w.
  destruct (second_tick_submits_nothing session w
              (submitted (updateOrders session w)))
    as (_ & Hsame & Hdef).
  - vm_compute. split; discriminate.
  - reflexivity.
  - vm_compute.
    apply Forall_cons; split; [|apply Forall_cons; split; [|by apply Forall_nil]].
    all: split; [reflexivity|].
    all: split; [repeat constructor|].
    all: split; [apply (bool_decide_unpack _); vm_compute; exact I|].
    all: repeat constructor.
  - split; [by vm_compute|]. split; [exact Hsame|].
    split; (rewrite Hdef; [by vm_compute|]);
      vm_compute; intros [Hbal|Hband]; discriminate.
Defined.

(** * Further properties of the strategy *)

Section Ticks.
Context {V : Type} `{!fixedpoint.Value V}.
Context {E : Type} `{!bbgo.OrderExecutor E}.
Implicit Types (s : Strategy V) (side : SideType) (w : World V E).

Lemma accepted_app (l k : list Submission) :
  accepted (l ++ k) = accepted l ++ accepted k.
Proof. unfold accepted. apply flat_map_app. Qed.

Lemma Add_app (l k : list Order) (b : LocalActiveOrderBook) :
  Add (l ++ k) b = Add k (Add l b).
Proof. unfold Add. apply foldl_app. Qed.

(** One side of a tick submits at most once, and then the ladder of its
    deficit. *)
Lemma replenish_submissions side session w :
  is_int (GridNum (strategy w)) →
  ∃ evs,
    submitted (replenish side session w) = submitted w ++ evs
    ∧ (length evs ≤ 1)%nat
    ∧ Forall (planned side (strategy w)) evs.
Proof.
  intros Hint.
  pose proof (replenish_outcome side session w Hint) as Hcases.
  cbv zeta in Hcases.
  destruct Hcases as [[-> _]|(Hpos & oe & orders & err & ->)].
  - exists []. rewrite app_nil_r. split; [done|]. split; [simpl; lia|constructor].
  - eexists [_]. split; [done|]. split; [simpl; lia|].
    constructor; [|constructor]. split; [|done].
    pose proof (Len_nonneg (mappingOf side (activeOrders (strategy w)))).
    unfold deficit in *. lia.
Qed.

(** One side of a tick changes the book by adding what came back from
    its call, if the call returned no error. *)
Lemma replenish_effect side session w :
  ∃ evs,
    submitted (replenish side session w) = submitted w ++ evs
    ∧ strategy (replenish side session w)
      = set_activeOrders (Add (accepted evs) (activeOrders (strategy w)))
          (strategy w).
Proof.
  unfold replenish. case_match.
  2: { exists []. rewrite app_nil_r. split; [done|].
       simpl. by rewrite set_activeOrders_id. }
  destruct (updateSide_cases side session w)
    as [[-> _]|(_ & _ & oe & orders & err & _ & ->)].
  - exists []. rewrite app_nil_r. split; [done|].
    simpl. by rewrite set_activeOrders_id.
  - eexists [_]. split; [done|]. simpl.
    destruct err; simpl; [by rewrite set_activeOrders_id|].
    by rewrite app_nil_r.
Qed.

End Ticks.

(** ** What a tick submits, and what it does to the book *)

(** X1. With GridNum a Go [int], one call of [updateOrders] calls
    [SubmitOrders] at most once for the buy side and then at most once for
    the sell side. Each batch is the ladder of the side's deficit at that
    moment, from the side's band: at least one order and at most GridNum
    orders. The sell side's deficit is taken from the book as the buy side
    left it. *)
Theorem tick_submissions {V : Type} `{!fixedpoint.Value V}
    {E : Type} `{!bbgo.OrderExecutor E}
    (session : bbgo.ExchangeSession) (w : World V E) :
  is_int (GridNum (strategy w)) →
  ∃ bids asks : list Submission,
    submitted (updateOrders session w) = submitted w ++ bids ++ asks
    ∧ (length bids ≤ 1)%nat
    ∧ (length asks ≤ 1)%nat
    ∧ Forall (planned SideTypeBuy (strategy w)) bids
    ∧ Forall (planned SideTypeSell (strategy (replenish SideTypeBuy session w))) asks.
Proof.
  intros Hint. rewrite updateOrders_replenish.
  destruct (replenish_submissions SideTypeBuy session w Hint)
    as (bids & Hb & Hlb & Hpb).
  destruct (replenish_submissions SideTypeSell session
              (replenish SideTypeBuy session w))
    as (asks & Ha & Hla & Hpa); [by rewrite GridNum_replenish|].
  exists bids, asks. rewrite Ha, Hb, <- app_assoc. done.
Qed.

(** A funded account, an empty book and GridNum 3: the tick submits one
    batch per side. *)
Lemma tick_submissions_witness :
  let session := sample.funded 1 1000 in
  let w := sample.start {| sample.next_id := 1 |}
             (sample.config 100000000 3 (sample.bands 100 110)) in
  ∃ bids asks : list Submission,
    submitted (updateOrders session w) = submitted w ++ bids ++ asks
    ∧ (length bids ≤ 1)%nat
    ∧ (length asks ≤ 1)%nat
    ∧ Forall (planned SideTypeBuy (strategy w)) bids
    ∧ Forall (planned SideTypeSell (strategy (replenish SideTypeBuy session w))) asks.
Proof.
  intros session w. apply (tick_submissions session w).
  vm_compute. split; discriminate.
Defined.

(** X2. One call of [updateOrders] changes nothing of the strategy but the
    book, and the book it leaves is the book it found with the orders
    added that came back from this tick's calls of [SubmitOrders] without
    an error, in the order of the calls: what comes back with an error is
    dropped, and what comes back without one is all added, whatever was
    requested. *)
Theorem tick_book {V : Type} `{!fixedpoint.Value V}
    {E : Type} `{!bbgo.OrderExecutor E}
    (session : bbgo.ExchangeSession) (w : World V E) :
  ∃ evs : list Submission,
    submitted (updateOrders session w) = submitted w ++ evs
    ∧ strategy (updateOrders session w)
      = set_activeOrders (Add (accepted evs) (activeOrders (strategy w)))
          (strategy w).
Proof.
  rewrite updateOrders_replenish.
  destruct (replenish_effect SideTypeBuy session w) as (bids & Hb & Hsb).
  destruct (replenish_effect SideTypeSell session (replenish SideTypeBuy session w))
    as (asks & Ha & Hsa).
  exists (bids ++ asks). split; [by rewrite Ha, Hb, <- app_assoc|].
  rewrite Hsa, Hsb, accepted_app, Add_app. done.
Qed.

(** ** A whole run *)

Section Runs.
Context {V : Type} `{!fixedpoint.Value V}.
Context {E : Type} `{!bbgo.OrderExecutor E}.
Implicit Types (s : Strategy V) (side : SideType) (w : World V E).

Lemma settings_set_activeOrders b s : settings (set_activeOrders b s) = settings s.
Proof. done. Qed.

Lemma settings_set_boll b s : settings (set_boll b s) = settings s.
Proof. done. Qed.

Lemma settings_onOrderUpdate order s : settings (onOrderUpdate order s) = settings s.
Proof.
  rewrite onOrderUpdate_cases.
  destruct (negb _); [done|]. by destruct (terminal _).
Qed.

Lemma settings_updateOrders session w :
  settings (strategy (updateOrders session w)) = settings (strategy w).
Proof.
  rewrite updateOrders_replenish, replenish_config, settings_set_activeOrders.
  by rewrite replenish_config, settings_set_activeOrders.
Qed.

Lemma settings_step ev w : settings (strategy (step ev w)) = settings (strategy w).
Proof.
  destruct ev as [session band|order]; simpl.
  - by rewrite settings_updateOrders.
  - apply settings_onOrderUpdate.
Qed.

Lemma settings_run events w :
  settings (strategy (run events w)) = settings (strategy w).
Proof.
  revert w. induction events as [|ev events IH]; intros w; [done|].
  unfold run in *. simpl. by rewrite IH, settings_step.
Qed.

Lemma settings_GridNum s s' : settings s' = settings s → GridNum s' = GridNum s.
Proof. unfold settings. intros Heq. by injection Heq. Qed.

(** With a GridNum that is not positive a tick returns at the two length
    tests. *)
Lemma updateOrders_nonpositive session w :
  (GridNum (strategy w) ≤ 0)%Z → updateOrders session w = w.
Proof.
  intros Hn. rewrite updateOrders_replenish.
  assert (∀ side, replenish side session w = w) as Hskip.
  { intros side. apply replenish_skip. right.
    pose proof (Len_nonneg (mappingOf side (activeOrders (strategy w)))).
    unfold deficit. lia. }
  by rewrite !Hskip.
Qed.

Lemma run_nonpositive events w :
  (GridNum (strategy w) ≤ 0)%Z → submitted (run events w) = submitted w.
Proof.
  revert w. induction events as [|ev events IH]; intros w Hn; [done|].
  unfold run in *. simpl. rewrite IH.
  - destruct ev as [session band|order]; simpl; [|done].
    by rewrite updateOrders_nonpositive.
  - by rewrite (settings_GridNum _ _ (settings_step ev w)).
Qed.

End Runs.

(** ** Terminal orders through a run *)

Section TerminalOrders.
Context {V : Type} `{!fixedpoint.Value V}.
Context {E : Type} `{!bbgo.OrderExecutor E}.
Implicit Types (s : Strategy V) (w : World V E) (id : N).

Lemma untracked_Add id (orders : list Order) (b : LocalActiveOrderBook) :
  Forall (λ o, OrderID o ≠ id) orders →
  untracked id b → untracked id (Add orders b).
Proof.
  intros Hids. revert b. induction Hids as [|o orders Ho _ IH]; intros b Hun; [done|].
  rewrite Add_cons. by apply IH, untracked_upsert_other.
Qed.

Lemma Symbol_step ev w : Symbol (strategy (step ev w)) = Symbol (strategy w).
Proof.
  pose proof (settings_step ev w) as Heq. unfold settings in Heq.
  by injection Heq.
Qed.

(** What one event does to the record of calls and to the book. *)
Lemma step_effect ev w :
  ∃ evs,
    submitted (step ev w) = submitted w ++ evs
    ∧ match ev with
      | Tick _ _ =>
          activeOrders (strategy (step ev w))
          = Add (accepted evs) (activeOrders (strategy w))
      | OrderUpdate o =>
          evs = [] ∧ strategy (step ev w) = onOrderUpdate o (strategy w)
      end.
Proof.
  destruct ev as [session band|o]; simpl.
  2: { exists []. by rewrite app_nil_r. }
  rewrite updateOrders_replenish.
  set (w0 := {| strategy := set_boll band (strategy w);
                orderExecutor := orderExecutor w; submitted := submitted w |}).
  destruct (replenish_effect SideTypeBuy session w0) as (bids & Hb & Hsb).
  destruct (replenish_effect SideTypeSell session (replenish SideTypeBuy session w0))
    as (asks & Ha & Hsa).
  exists (bids ++ asks). split; [by rewrite Ha, Hb, <- app_assoc|].
  rewrite Hsa, Hsb, accepted_app, Add_app. done.
Qed.

Lemma run_cons ev events w : run (ev :: events) w = run events (step ev w).
Proof. done. Qed.

Lemma run_app l k w : run (l ++ k) w = run k (run l w).
Proof. unfold run. by rewrite foldl_app. Qed.

Lemma run_log events w :
  ∃ evs, submitted (run events w) = submitted w ++ evs.
Proof.
  revert w. induction events as [|ev events IH]; intros w.
  { exists []. by rewrite app_nil_r. }
  rewrite run_cons. destruct (IH (step ev w)) as [rest Hrest].
  destruct (step_effect ev w) as (evs & Hevs & _).
  exists (evs ++ rest). by rewrite Hrest, Hevs, app_assoc.
Qed.

(** An id that is in neither mapping stays out through a run in which no
    notification and no accepted submission brings it. *)
Lemma run_untracked id events w :
  untracked id (activeOrders (strategy w)) →
  Forall (keeps_out id (Symbol (strategy w))) events →
  Forall (λ o, OrderID o ≠ id) (accepted (submittedSince w (run events w))) →
  untracked id (activeOrders (strategy (run events w))).
Proof.
  revert w. induction events as [|ev events IH]; intros w Hun Hevents Hsub; [done|].
  rewrite run_cons in Hsub |- *.
  apply Forall_cons in Hevents as [Hev Hevents].
  destruct (step_effect ev w) as (evs & Hevs & Heff).
  destruct (run_log events (step ev w)) as [rest Hrest].
  unfold submittedSince in Hsub.
  rewrite Hrest, Hevs, <- app_assoc, drop_app_length, accepted_app in Hsub.
  apply Forall_app in Hsub as [Hnow Hlater].
  apply IH.
  - destruct ev as [session band|o].
    + rewrite Heff. by apply untracked_Add.
    + destruct Heff as [_ ->]. by apply untracked_onOrderUpdate.
  - by rewrite Symbol_step.
  - unfold submittedSince. by rewrite Hrest, drop_app_length.
Qed.

End TerminalOrders.

(** C3, amended. Take any state of a run and a notification on the
    configured instrument with status Filled, Canceled or Rejected. Once
    the callback has processed it, the id is in neither mapping, and it is
    in neither mapping at every later state of the run, through ticks and
    notifications alike, as long as none of the later notifications
    carries that id, the configured instrument and a status other than
    Filled, Canceled or Rejected, and none of the later calls of
    [SubmitOrders] returns an order of that id without an error. *)
Theorem terminal_stays_removed {V : Type} `{!fixedpoint.Value V}
    {E : Type} `{!bbgo.OrderExecutor E}
    (w : World V E) (order : Order) (events : list Event) (k : nat) :
  types.Symbol (Request order) = Symbol (strategy w) →
  terminal (Status order) = true →
  Forall (keeps_out (OrderID order) (Symbol (strategy w))) events →
  Forall (λ o, OrderID o ≠ OrderID order)
    (accepted (submittedSince w (run (OrderUpdate order :: events) w))) →
  untracked (OrderID order)
    (activeOrders (strategy (run (OrderUpdate order :: take k events) w))).
Proof.
  intros Hsym Hterm Hevents Hsub.
  rewrite run_cons in Hsub |- *.
  set (w1 := step (OrderUpdate order) w) in *.
  assert (submitted w1 = submitted w) as Hlog by done.
  assert (Symbol (strategy w1) = Symbol (strategy w)) as Hs1 by apply Symbol_step.
  assert (untracked (OrderID order) (activeOrders (strategy w1))) as Hun.
  { unfold w1. simpl. rewrite onOrderUpdate_cases.
    apply String.eqb_eq in Hsym. rewrite Hsym, Hterm. simpl.
    apply untracked_Delete. }
  apply run_untracked; [done| |].
  - rewrite Hs1. by apply Forall_take.
  - rewrite <- (take_drop k events), run_app in Hsub.
    destruct (run_log (take k events) w1) as [now Hnow].
    destruct (run_log (drop k events) (run (take k events) w1)) as [later Hlater].
    unfold submittedSince in Hsub |- *.
    rewrite Hlater, Hnow, <- Hlog, <- app_assoc, drop_app_length, accepted_app
      in Hsub.
    apply Forall_app in Hsub as [Hsub _].
    by rewrite Hnow, drop_app_length.
Qed.

(** Order 9 is reported Canceled on an empty book; then a tick submits and
    books orders 1 to 6, the Canceled notification is delivered again, and
    order 10 is reported New. *)
Lemma terminal_stays_removed_witness :
  let w := sample.start {| sample.next_id := 1 |}
             (sample.config 100000000 3 (sample.bands 100 110)) in
  let canceled := sample.notice 9 "BTCUSDT" SideTypeSell OrderStatusCanceled in
  let other := sample.notice 10 "BTCUSDT" SideTypeBuy OrderStatusNew in
  let events := [Tick (sample.funded 1 1000) (sample.bands 100 110);
                 OrderUpdate canceled; OrderUpdate other] in
  untracked 9
    (activeOrders (strategy (run (OrderUpdate canceled :: take 3 events) w))).
Proof.
  intros w canceled other events.
  apply (terminal_stays_removed w canceled events 3).
  - reflexivity.
  - reflexivity.
  - repeat constructor; vm_compute; intros; congruence.
  - vm_compute. repeat constructor; discriminate.
Defined.

(** An order that was reported Filled comes back when a later call of
    [SubmitOrders] returns its id: order 1 is reported Filled, and the
    next tick's buy batch is booked under ids 1, 2, 3. *)
Lemma filled_order_resubmitted :
  let w := sample.start {| sample.next_id := 1 |}
             (sample.config 100000000 3 (sample.bands 100 110)) in
  let filled := sample.notice 1 "BTCUSDT" SideTypeBuy OrderStatusFilled in
  untracked 1 (activeOrders (strategy (run [OrderUpdate filled] w)))
  ∧ is_Some (Bids (activeOrders (strategy
               (run [OrderUpdate filled;
                     Tick (sample.funded 1 1000) (sample.bands 100 110)] w)))
             !! 1%N).
Proof.
  intros w filled. split; [by vm_compute|]. vm_compute. eauto.
Qed.

(** X3. A negative GridNum is not replaced by [Run] (only 0 is) and no
    length test [Len() < GridNum] ever passes with it: the first
    [updateOrders] and every later tick submit nothing, whatever the
    balances, the bands and the order updates in between. *)
Theorem negative_grid_never_submits {V : Type} `{!fixedpoint.Value V}
    {E : Type} `{!bbgo.OrderExecutor E}
    (orderExecutor : E) (session : bbgo.ExchangeSession) (s : Strategy V)
    (events : list Event) :
  (GridNum s < 0)%Z →
  submitted (run events (Run orderExecutor session s)) = [].
Proof.
  intros Hn.
  assert (GridNum (RunSetup s) = GridNum s) as Hsetup.
  { unfold RunSetup. simpl. destruct (Z.eqb_spec (GridNum s) 0); [lia|done]. }
  unfold Run. rewrite updateOrders_nonpositive by (cbn [strategy]; lia).
  rewrite run_nonpositive by (cbn [strategy]; lia). done.
Qed.

(** GridNum −1 on a funded account: two ticks and an order update. *)
Lemma negative_grid_never_submits_witness :
  submitted
    (run [Tick (sample.funded 1 1000) (sample.bands 100 110);
          OrderUpdate (sample.notice 7 "BTCUSDT" SideTypeBuy OrderStatusNew);
          Tick (sample.funded 1 1000) (sample.bands 101 111)]
       (Run {| sample.next_id := 1 |} (sample.funded 1 1000)
          (sample.config 100000000 (-1) (sample.bands 100 110))))
  = [].
Proof.
  apply (negative_grid_never_submits {| sample.next_id := 1 |}
           (sample.funded 1 1000)
           (sample.config 100000000 (-1) (sample.bands 100 110))).
  reflexivity.
Defined.

(** X4. Through a whole run, whatever ticks and order updates arrive, the
    strategy's settings (indicator set, market, symbol, interval, GridPips,
    GridNum, BaseQuantity) stay what the configuration gave, with [Run]'s
    default for GridNum: neither [updateOrders] nor the callback writes
    them. In particular GridNum is never 0 after [Run]. *)
Theorem run_keeps_settings {V : Type} `{!fixedpoint.Value V}
    {E : Type} `{!bbgo.OrderExecutor E}
    (orderExecutor : E) (session : bbgo.ExchangeSession) (s : Strategy V)
    (events : list Event) :
  settings (strategy (run events (Run orderExecutor session s)))
  = settings (if (GridNum s =? 0)%Z then set_GridNum 2 s else s)
  ∧ GridNum (strategy (run events (Run orderExecutor session s))) ≠ 0%Z.
Proof.
  assert (settings (strategy (run events (Run orderExecutor session s)))
          = settings (if (GridNum s =? 0)%Z then set_GridNum 2 s else s)) as Hset.
  { rewrite settings_run. unfold Run. rewrite settings_updateOrders. simpl.
    unfold RunSetup.
    by rewrite settings_set_activeOrders, settings_set_boll. }
  split; [done|].
  rewrite (settings_GridNum _ _ Hset).
  destruct (Z.eqb_spec (GridNum s) 0); simpl; [lia|done].
Qed.

(** ** A band that is not a number *)

Lemma nan_sub (x : float) : (nan - x)%float = nan.
Proof.
  apply Prim2SF_inj. rewrite sub_spec.
  change (Prim2SF nan) with S754_nan. reflexivity.
Qed.

Lemma nan_add (x : float) : (nan + x)%float = nan.
Proof.
  apply Prim2SF_inj. rewrite add_spec.
  change (Prim2SF nan) with S754_nan. reflexivity.
Qed.

Lemma ladder_nan {V : Type} `{!fixedpoint.Value V}
    (side : SideType) (s : Strategy V) (n : nat) :
  Forall (λ r, Price r = nan) (ladder side s n nan).
Proof.
  induction n as [|n IH]; [destruct side; constructor|].
  rewrite ladder_unfold. constructor; [done|].
  assert (away side s nan = nan) as ->; [|done].
  destruct side; simpl; [apply nan_sub|apply nan_add].
Qed.

(** X5. The test [band <= 0.0] is false of NaN, so a band reading that is
    not a number is not taken as unavailable: with a positive balance and a
    positive deficit the side submits its whole ladder, and every order of
    it is priced NaN. *)
Theorem nan_band_is_submitted {V : Type} `{!fixedpoint.Value V}
    {E : Type} `{!bbgo.OrderExecutor E}
    (side : SideType) (session : bbgo.ExchangeSession) (w : World V E)
    (balance : Balance) :
  bandEdge side (boll (strategy w)) = nan →
  bbgo.Balances (bbgo.Account_ session) !! currencyOf side (strategy w)
  = Some balance →
  (Available balance <=? 0)%float = false →
  is_int (deficit side (strategy w)) →
  (0 < deficit side (strategy w))%Z →
  ∃ batch created,
    submitted (updateSide side session w) = submitted w ++ [(batch, created)]
    ∧ Z.of_nat (length batch) = deficit side (strategy w)
    ∧ Forall (λ r, Price r = nan) batch.
Proof.
  intros Hnan Hbal Havail Hint Hpos.
  pose proof (updateSide_cases side session w) as Hcases.
  cbv zeta in Hcases. rewrite int_wrap_id, Hnan in Hcases by done.
  destruct Hcases as [[_ Hskip]|(_ & _ & oe & orders & err & _ & ->)].
  - exfalso. destruct Hskip as [[Hb|Hb]|Hn]; [| |lia].
    + rewrite Hbal in Hb. congruence.
    + rewrite Hnan in Hb. vm_compute in Hb. discriminate Hb.
  - eexists _, _. split; [done|].
    rewrite length_ladder. split; [lia|apply ladder_nan].
Qed.

(** A lower band that is NaN, a quote balance of 1000 and three bids
    missing. *)
Lemma nan_band_is_submitted_witness :
  let w := sample.start {| sample.next_id := 1 |}
             (sample.config 100000000 3 (sample.bands nan 110)) in
  ∃ batch created,
    submitted (updateSide SideTypeBuy (sample.funded 1 1000) w)
    = submitted w ++ [(batch, created)]
    ∧ Z.of_nat (length batch) = deficit SideTypeBuy (strategy w)
    ∧ Forall (λ r, Price r = nan) batch.
Proof.
  intros w.
  apply (nan_band_is_submitted SideTypeBuy (sample.funded 1 1000) w
           (sample.balance "USDT" 1000)).
  - reflexivity.
  - vm_compute. reflexivity.
  - vm_compute. reflexivity.
  - vm_compute. split; discriminate.
  - vm_compute. reflexivity.
Defined.

(** ** Duplicate notifications *)

Lemma upsert_twice (order : Order) (b : LocalActiveOrderBook) :
  upsert order (upsert order b) = upsert order b.
Proof.
  unfold upsert. destruct (Side (Request order)); apply book_eq; simpl;
    by rewrite ?insert_insert_eq.
Qed.

Lemma Delete_twice (order : Order) (b : LocalActiveOrderBook) :
  Delete order (Delete order b) = Delete order b.
Proof. apply book_eq; simpl; apply delete_delete_eq. Qed.

(** X6. Delivering the same notification twice in a row does what
    delivering it once does. The callback passes the order to [WriteOff],
    [Delete] or [Add]; the book these act on is the one described for the
    order book above (removal and upsert by id). *)
Theorem duplicate_notification {V : Type} (s : Strategy V) (order : Order) :
  onOrderUpdate order (onOrderUpdate order s) = onOrderUpdate order s.
Proof.
  rewrite (onOrderUpdate_cases order (onOrderUpdate order s)).
  rewrite Symbol_onOrderUpdate.
  rewrite (onOrderUpdate_cases order s).
  destruct (negb _) eqn:Hsym; [done|].
  destruct (terminal (Status order)) eqn:Hterm; destruct s; simpl.
  - by rewrite Delete_twice.
  - by rewrite upsert_twice.
Qed.

(** * Properties of the order endpoint *)

(** Run a method of [OrderService] by cases on what the client answers. *)
Ltac by_answers :=
  unfold maxapi.OrderService_All, maxapi.OrderService_CancelAll,
    maxapi.OrderService_Cancel, maxapi.OrderService_Get,
    maxapi.OrderService_CreateMulti, maxapi.build, maxapi.send;
  repeat match goal with
    | |- context [maxapi.newAuthenticatedRequest ?c ?m ?p ?pl] =>
        let Hb := fresh "Hbuild" in
        destruct (maxapi.newAuthenticatedRequest c m p pl) as [? [?|?]] eqn:Hb;
        simpl
    | |- context [maxapi.sendRequest ?c ?r] =>
        let Hs := fresh "Hsend" in
        destruct (maxapi.sendRequest c r) as [? [?|?]] eqn:Hs; simpl
    | |- context [maxapi.DecodeJSON_orders ?r] =>
        let Hd := fresh "Hdecode" in
        destruct (maxapi.DecodeJSON_orders r) as [? [?|]] eqn:Hd; simpl
    | |- context [maxapi.DecodeJSON_order ?r] =>
        let Hd := fresh "Hdecode" in
        destruct (maxapi.DecodeJSON_order r) as [? [?|]] eqn:Hd; simpl
    end.

Section Endpoint.
Context {C Req Resp : Type} `{!maxapi.RestClient C Req Resp}.
Implicit Types (s : maxapi.OrderService C Req).

Lemma firstCall_one s (c : C) (call : maxapi.Call Req) (rest : list (maxapi.Call Req)) :
  maxapi.firstCall s
    {| maxapi.client := c; maxapi.calls := maxapi.calls s ++ call :: rest |}
  = Some call.
Proof. unfold maxapi.firstCall. simpl. by apply list_lookup_middle. Qed.

(** The request [All] builds, whatever happens to it afterwards. *)
Lemma All_firstCall s market limit page state :
  maxapi.firstCall s (maxapi.OrderService_All s market limit page state).1
  = Some (maxapi.Built "GET" "v2/orders"
            (<["market" := maxapi.VString market]>
               (<["limit" := maxapi.VInt limit]>
                  (<["page" := maxapi.VInt page]>
                     (<["state" := maxapi.VStrings
                          (if (state =? maxapi.All)%Z
                           then ["done"; "cancel"; "wait"; "convert"]
                           else if (state =? maxapi.Active)%Z then ["wait"; "convert"]
                           else if (state =? maxapi.Closed)%Z then ["done"; "cancel"]
                           else ["wait"; "convert"])]>
                        (<["order_by" := maxapi.VString "desc"]> ∅)))))).
Proof.
  by_answers; rewrite <- ?app_assoc; apply firstCall_one.
Qed.

End Endpoint.

(** ** Which orders [All] asks for *)

(** X7. A state to query that is none of the three constants is not
    refused: [All] then does exactly what it does for [Active]. *)
Theorem All_unknown_state {C Req Resp : Type} `{!maxapi.RestClient C Req Resp}
    (s : maxapi.OrderService C Req) (market : string) (limit page state : Z) :
  state ≠ maxapi.All →
  state ≠ maxapi.Closed →
  maxapi.OrderService_All s market limit page state
  = maxapi.OrderService_All s market limit page maxapi.Active.
Proof.
  intros HnAll HnClosed. unfold maxapi.OrderService_All.
  apply Z.eqb_neq in HnAll, HnClosed. rewrite HnAll, HnClosed.
  by destruct (state =? maxapi.Active)%Z.
Qed.

(** State 7 against a client that answers. *)
Lemma All_unknown_state_witness :
  maxapi.OrderService_All (scripted.service scripted.healthy) "btctwd" 10 1 7
  = maxapi.OrderService_All (scripted.service scripted.healthy) "btctwd" 10 1
      maxapi.Active.
Proof.
  apply (All_unknown_state (scripted.service scripted.healthy) "btctwd" 10 1 7);
    discriminate.
Defined.

(** X8. The states [All] puts in its request for the constant [All] are
    those it puts for [Closed] followed by those it puts for [Active], and
    no state is asked for by both [Closed] and [Active]. *)
Theorem All_states_cover {C Req Resp : Type} `{!maxapi.RestClient C Req Resp}
    (s : maxapi.OrderService C Req) (market : string) (limit page : Z) :
  ∃ (closed active : list string) (pc pa pall : maxapi.Payload),
    maxapi.firstCall s (maxapi.OrderService_All s market limit page maxapi.Closed).1
    = Some (maxapi.Built "GET" "v2/orders" pc)
    ∧ maxapi.firstCall s (maxapi.OrderService_All s market limit page maxapi.Active).1
      = Some (maxapi.Built "GET" "v2/orders" pa)
    ∧ maxapi.firstCall s (maxapi.OrderService_All s market limit page maxapi.All).1
      = Some (maxapi.Built "GET" "v2/orders" pall)
    ∧ pc !! "state" = Some (maxapi.VStrings closed)
    ∧ pa !! "state" = Some (maxapi.VStrings active)
    ∧ pall !! "state" = Some (maxapi.VStrings (closed ++ active))
    ∧ (∀ x, x ∈ closed → x ∉ active).
Proof.
  exists ["done"; "cancel"], ["wait"; "convert"].
  eexists _, _, _.
  split; [apply All_firstCall|]. split; [apply All_firstCall|].
  split; [apply All_firstCall|]. simpl.
  split; [by simplify_map_eq|]. split; [by simplify_map_eq|].
  split; [by simplify_map_eq|].
  intros x Hc Ha.
  repeat (apply elem_of_cons in Hc as [->|Hc]);
    [| |by apply elem_of_nil in Hc];
    repeat (apply elem_of_cons in Ha as [Ha|Ha]; [discriminate Ha|]);
    by apply elem_of_nil in Ha.
Qed.

(** ** Orders and errors *)

(** X9. [All] never returns orders together with an error: whenever the
    error is not nil, the slice is nil, also when decoding the response
    failed half way. *)
Theorem All_error_without_orders {C Req Resp : Type}
    `{!maxapi.RestClient C Req Resp}
    (s : maxapi.OrderService C Req) (market : string) (limit page state : Z)
    (orders : list maxapi.Order) (e : maxapi.error) :
  (maxapi.OrderService_All s market limit page state).2 = (orders, Some e) →
  orders = [].
Proof.
  by_answers; intros Hres; by injection Hres as <-.
Qed.

(** A response whose JSON breaks off after one order. *)
Lemma All_error_without_orders_witness :
  (maxapi.OrderService_All (scripted.service scripted.truncated) "btctwd" 10 1
     maxapi.Active).2.1
  = [].
Proof.
  apply (All_error_without_orders (scripted.service scripted.truncated)
           "btctwd" 10 1 maxapi.Active _ "unexpected end of JSON input").
  reflexivity.
Defined.

(** X10. Whenever [CreateMulti] returns a slice that is not empty, the
    response was received, and the slice and the error are exactly what
    [DecodeJSON] left: a decoding error comes back together with the
    orders decoded so far, where [All] returns nil. *)
Theorem CreateMulti_results {C Req Resp : Type} `{!maxapi.RestClient C Req Resp}
    (s : maxapi.OrderService C Req) (market : string)
    (orders returned : list maxapi.Order) (err : option maxapi.error) :
  (maxapi.OrderService_CreateMulti s market orders).2 = (returned, err) →
  returned ≠ [] →
  ∃ (c c' : C) (req : Req) (response : Resp),
    maxapi.sendRequest c req = (c', inl response)
    ∧ maxapi.DecodeJSON_orders response = (returned, err).
Proof.
  by_answers; intros Hres Hne; injection Hres as <- <-; try done;
    eexists _, _, _, _; split; eassumption.
Qed.

(** The response breaks off after one order: [CreateMulti] returns that
    order and the decoder's error. *)
Lemma CreateMulti_results_witness :
  (maxapi.OrderService_CreateMulti (scripted.service scripted.truncated)
     "btctwd" [scripted.order 0 ""; scripted.order 0 ""]).2
  = ([scripted.order 1 "wait"], Some "unexpected end of JSON input")
  ∧ ∃ (c c' : scripted.Script) (req : scripted.Request) (response : scripted.Script),
      maxapi.sendRequest c req = (c', inl response)
      ∧ maxapi.DecodeJSON_orders response
        = ([scripted.order 1 "wait"], Some "unexpected end of JSON input").
Proof.
  split; [reflexivity|].
  apply (CreateMulti_results (scripted.service scripted.truncated) "btctwd"
           [scripted.order 0 ""; scripted.order 0 ""]).
  - reflexivity.
  - discriminate.
Defined.

(** ** One round trip *)

(** X11. [All], [CancelAll], [Cancel], [Get] and [CreateMulti] each build
    exactly one request and, only if building it succeeded, send exactly
    that request once: none of them sends after a failed build, retries,
    or makes a second request. *)
Theorem one_round_trip {C Req Resp : Type} `{!maxapi.RestClient C Req Resp}
    (s : maxapi.OrderService C Req) (market side : string) (limit page state : Z)
    (orderID : N) (orders : list maxapi.Order) :
  maxapi.roundTrip s (maxapi.OrderService_All s market limit page state).1
  ∧ maxapi.roundTrip s (maxapi.OrderService_CancelAll s side market).1
  ∧ maxapi.roundTrip s (maxapi.OrderService_Cancel s orderID).1
  ∧ maxapi.roundTrip s (maxapi.OrderService_Get s orderID).1
  ∧ maxapi.roundTrip s (maxapi.OrderService_CreateMulti s market orders).1.
Proof.
  unfold maxapi.roundTrip.
  repeat split; by_answers; eexists _, _, _;
    match goal with
    | Hb : maxapi.newAuthenticatedRequest _ _ _ _ = _ |- _ => rewrite Hb
    end; simpl; by rewrite <- ?app_assoc.
Qed.

(** ** What [CancelAll] clears *)

(** X12. The request of [CancelAll] is a POST to v2/orders/clear. Its
    payload carries the side only when the side is "buy" or "sell", and
    the market only when the market is not "all"; it carries nothing
    else. *)
Theorem CancelAll_request {C Req Resp : Type} `{!maxapi.RestClient C Req Resp}
    (s : maxapi.OrderService C Req) (side market : string) :
  ∃ payload : maxapi.Payload,
    maxapi.firstCall s (maxapi.OrderService_CancelAll s side market).1
    = Some (maxapi.Built "POST" "v2/orders/clear" payload)
    ∧ (side = "buy" ∨ side = "sell" →
       payload !! "side" = Some (maxapi.VString side))
    ∧ (side ≠ "buy" → side ≠ "sell" → payload !! "side" = None)
    ∧ (market ≠ "all" → payload !! "market" = Some (maxapi.VString market))
    ∧ (market = "all" → payload !! "market" = None)
    ∧ (∀ key, key ≠ "side" → key ≠ "market" → payload !! key = None).
Proof.
  eexists. split.
  { by_answers; rewrite <- ?app_assoc; apply firstCall_one. }
  destruct (String.eqb_spec side "buy") as [Hb|Hb];
    destruct (String.eqb_spec side "sell") as [Hs|Hs];
    destruct (String.eqb_spec market "all") as [Hm|Hm]; simpl.
  all: repeat split; intros; simplify_map_eq; try done.
  all: by intuition.
Qed.

(** X13. A side that is neither "buy" nor "sell" (a misspelt or
    capitalised one, say) is not refused: [CancelAll] does exactly what it
    does for the empty side, so the orders of both sides are cleared. *)
Theorem CancelAll_unknown_side {C Req Resp : Type}
    `{!maxapi.RestClient C Req Resp}
    (s : maxapi.OrderService C Req) (side market : string) :
  side ≠ "buy" →
  side ≠ "sell" →
  maxapi.OrderService_CancelAll s side market
  = maxapi.OrderService_CancelAll s "" market.
Proof.
  intros Hb Hs. unfold maxapi.OrderService_CancelAll.
  apply String.eqb_neq in Hb, Hs. by rewrite Hb, Hs.
Qed.

(** The side "Buy", with a capital. *)
Lemma CancelAll_unknown_side_witness :
  maxapi.OrderService_CancelAll (scripted.service scripted.healthy) "Buy" "btctwd"
  = maxapi.OrderService_CancelAll (scripted.service scripted.healthy) "" "btctwd".
Proof.
  apply (CancelAll_unknown_side (scripted.service scripted.healthy) "Buy" "btctwd");
    discriminate.
Defined.

(** ** The options of [Create] *)

(** X14. [Create] writes into the map it is given. With a nil map it
    panics at the first assignment, before any request. Otherwise it makes
    one call of [sendAuthenticatedRequest], a POST to v2/orders whose
    payload is the caller's map with the entries market, volume, price,
    side and ord_type set from the arguments, whatever the caller had put
    under these keys, and with every other entry of the caller kept; the
    caller's map is left in that state also when the request fails. *)
Theorem Create_options {C Req Resp : Type} `{!maxapi.RestClient C Req Resp}
    `{!maxapi.FloatFormat}
    (s : maxapi.OrderService C Req) (market side : string) (volume price : float)
    (orderType : string) :
  maxapi.OrderService_Create s market side volume price orderType None
  = maxapi.Panics "assignment to entry in nil map"
  ∧ ∀ options : maxapi.Payload,
      ∃ s' options' result,
        maxapi.OrderService_Create s market side volume price orderType (Some options)
        = maxapi.Returns (s', options', result)
        ∧ maxapi.calls s'
          = maxapi.calls s ++ [maxapi.SentAuthenticated "POST" "v2/orders" options']
        ∧ options' !! "market" = Some (maxapi.VString market)
        ∧ options' !! "volume" = Some (maxapi.VString (maxapi.FormatFloat volume))
        ∧ options' !! "price" = Some (maxapi.VString (maxapi.FormatFloat price))
        ∧ options' !! "side" = Some (maxapi.VString side)
        ∧ options' !! "ord_type" = Some (maxapi.VString orderType)
        ∧ ∀ key, key ∉ ["market"; "volume"; "price"; "side"; "ord_type"] →
                 options' !! key = options !! key.
Proof.
  split; [done|]. intros options.
  unfold maxapi.OrderService_Create, maxapi.buildAndSend.
  destruct (maxapi.sendAuthenticatedRequest _ _ _ _) as [c [response|e]].
  2: { eexists _, _, _. split; [done|]. simpl. split; [done|].
       repeat (split; [by simplify_map_eq|]).
       intros key Hkey. rewrite !not_elem_of_cons in Hkey.
       destruct Hkey as (? & ? & ? & ? & ? & _). by simplify_map_eq. }
  destruct (maxapi.DecodeJSON_order response) as [order [e|]].
  all: eexists _, _, _; split; [done|]; simpl; split; [done|].
  all: repeat (split; [by simplify_map_eq|]).
  all: intros key Hkey; rewrite !not_elem_of_cons in Hkey.
  all: destruct Hkey as (? & ? & ? & ? & ? & _); by simplify_map_eq.
Qed.

(** ** What [Get] returns *)

(** X15. When the request cannot be built, [Get] returns the error
    together with a pointer to a zero [Order], not nil. Once the request
    is built, the order is nil exactly when the error is not: sending or
    decoding failed. *)
Theorem Get_results {C Req Resp : Type} `{!maxapi.RestClient C Req Resp}
    (s : maxapi.OrderService C Req) (orderID : N) :
  let result := (maxapi.OrderService_Get s orderID).2 in
  match (maxapi.newAuthenticatedRequest (maxapi.client s) "GET" "v2/order"
           (<["id" := maxapi.VUint64 orderID]> ∅)).2 with
  | inr e => result = (Some maxapi.zeroOrder, Some e)
  | inl _ => (result.1 = None ↔ result.2 ≠ None)
             ∧ (is_Some result.1 ↔ result.2 = None)
  end.
Proof.
  by_answers; rewrite ?Hbuild; simpl; try done.
  all: split; split; try done; intros Hx; try (by inversion Hx); eauto.
Qed.
